(** * GatherWin: the agent helper [gather_agent.py]

    A shallow embedding of the authentication and session layer of
    [src/gather_agent.py] (key loading, challenge-response, token cache,
    expiry check, API calls) and the properties of it that the specification
    states.

    Conventions of the embedding.
    - A Python [str] and a Python [bytes] are both a [string]: a sequence of
      8-bit characters.  Text is thereby limited to the code points
      U+0000..U+00FF.
    - A Python [float] is the decimal number it is written as, or one of
      the special values; the clock reads a rational; rounding is not
      modelled.
    - A Python exception is a value of [exn]; a function that may raise
      returns a [result].
    - The file system, the clock, the remote service and the standard error
      stream are fields of [World]; the functions of the program are state
      transformers over it. *)

From Stdlib Require Import List String Ascii ZArith QArith Bool Lia Arith.
From Stdlib Require Import Decimal DecimalString DecimalFacts DecimalPos.
Import ListNotations.

Local Open Scope string_scope.
Local Open Scope Z_scope.

(** The character U+0022, the quotation mark. *)
Abbreviation dquote := ("034"%char) (only parsing).

(** ** Python values *)

(** A [float]: a decimal number [m * 10^e], or one of the three special
    values that [json.loads] accepts ([Infinity], [-Infinity], [NaN]). *)
Inductive pyfloat : Type :=
| FDec (m e : Z)
| FInf
| FNegInf
| FNaN.

#[local] Set Warnings "-register-all".

(** The values that [json.loads] produces.  A [dict] is kept in insertion
    order; its keys are strings. *)
Inductive pyval : Type :=
| PyNone
| PyBool (b : bool)
| PyInt (z : Z)
| PyFloat (f : pyfloat)
| PyStr (s : string)
| PyList (l : list pyval)
| PyDict (d : list (string * pyval)).

(** Exceptions.  [ValueError] stands for itself and for its subclasses
    [json.JSONDecodeError], [binascii.Error] and [UnicodeDecodeError];
    [OSError] for [FileNotFoundError] and [PermissionError];
    [RequestException] for the transport failures of [requests]. All of them
    derive from [Exception]. *)
Inductive exn : Type :=
| OSError
| ValueError
| KeyError (k : string)
| IndexError
| TypeError
| AttributeError
| HTTPError (status : Z) (body : string)
| RequestException.

Inductive result (A : Type) : Type :=
| Ok (a : A)
| Raise (e : exn).
Arguments Ok {A} a.
Arguments Raise {A} e.

Definition rbind {A B} (r : result A) (k : A -> result B) : result B :=
  match r with
  | Ok a => k a
  | Raise e => Raise e
  end.

(** *** Dictionaries *)

Fixpoint dict_lookup (k : string) (d : list (string * pyval)) : option pyval :=
  match d with
  | [] => None
  | (k', v) :: d' => if String.eqb k k' then Some v else dict_lookup k d'
  end.

(** [d[k] = v]: an existing key keeps its place and takes the new value. *)
Fixpoint dict_set (k : string) (v : pyval) (d : list (string * pyval))
  : list (string * pyval) :=
  match d with
  | [] => [(k, v)]
  | (k', v') :: d' =>
      if String.eqb k k' then (k', v) :: d' else (k', v') :: dict_set k v d'
  end.

(** *** Induction on values *)

Section PyvalInduction.

Variable P : pyval -> Prop.
Hypothesis HNone : P PyNone.
Hypothesis HBool : forall b, P (PyBool b).
Hypothesis HInt : forall z, P (PyInt z).
Hypothesis HFloat : forall f, P (PyFloat f).
Hypothesis HStr : forall s, P (PyStr s).
Hypothesis HList : forall l, Forall P l -> P (PyList l).
Hypothesis HDict :
  forall d, Forall (fun kv : string * pyval => P (snd kv)) d -> P (PyDict d).

Fixpoint pyval_induction (v : pyval) : P v :=
  match v with
  | PyNone => HNone
  | PyBool b => HBool b
  | PyInt z => HInt z
  | PyFloat f => HFloat f
  | PyStr s => HStr s
  | PyList l =>
      HList l
        ((fix all (l : list pyval) : Forall P l :=
            match l with
            | [] => Forall_nil P
            | x :: xs => Forall_cons x (pyval_induction x) (all xs)
            end) l)
  | PyDict d =>
      HDict d
        ((fix all (d : list (string * pyval))
            : Forall (fun kv : string * pyval => P (snd kv)) d :=
            match d with
            | [] => Forall_nil _
            | (k, x) :: xs =>
                Forall_cons (k, x) (pyval_induction x) (all xs)
            end) d)
  end.

End PyvalInduction.

(** [obj.get(k, default)]: only a [dict] has the method. *)
Definition py_get (obj : pyval) (k : string) (default : pyval) : result pyval :=
  match obj with
  | PyDict d =>
      match dict_lookup k d with
      | Some v => Ok v
      | None => Ok default
      end
  | _ => Raise AttributeError
  end.

(** [obj[k]] for a string key [k]. *)
Definition py_getitem (obj : pyval) (k : string) : result pyval :=
  match obj with
  | PyDict d =>
      match dict_lookup k d with
      | Some v => Ok v
      | None => Raise (KeyError k)
      end
  | _ => Raise TypeError
  end.

(** Truth value of an object, as [or] tests it. *)
Definition py_truthy (v : pyval) : bool :=
  match v with
  | PyNone => false
  | PyBool b => b
  | PyInt z => negb (z =? 0)
  | PyFloat (FDec m _) => negb (m =? 0)
  | PyFloat _ => true
  | PyStr s => negb (String.eqb s "")
  | PyList l => match l with [] => false | _ => true end
  | PyDict d => match d with [] => false | _ => true end
  end.

(** *** Numbers *)

Definition Q_of_dec (m e : Z) : Q := (inject_Z m * Qpower (10 # 1) e)%Q.

Definition Qltb (a b : Q) : bool :=
  match (a ?= b)%Q with
  | Lt => true
  | _ => false
  end.

(** [v > t] for a float [t]: defined on numbers ([bool] is a subclass of
    [int]), a [TypeError] on anything else. *)
Definition py_gt (v : pyval) (t : Q) : result bool :=
  match v with
  | PyInt z => Ok (Qltb t (inject_Z z))
  | PyBool b => Ok (Qltb t (inject_Z (if b then 1 else 0)))
  | PyFloat (FDec m e) => Ok (Qltb t (Q_of_dec m e))
  | PyFloat FInf => Ok true
  | PyFloat FNegInf => Ok false
  | PyFloat FNaN => Ok false
  | _ => Raise TypeError
  end.

(** *** Strings *)

(** [str(z)] for an [int]. *)
Definition Z_to_string (z : Z) : string :=
  NilEmpty.string_of_int (Z.to_int z).

(** [s.split(c)] for a one-character separator. *)
Fixpoint split_on (c : ascii) (s : string) : list string :=
  match s with
  | EmptyString => [EmptyString]
  | String a s' =>
      if Ascii.eqb a c then EmptyString :: split_on c s'
      else match split_on c s' with
           | [] => [String a EmptyString]
           | p :: ps => String a p :: ps
           end
  end.

(** [tok.split(".")]: a method of [str] only. *)
Definition py_split_dot (tok : pyval) : result (list string) :=
  match tok with
  | PyStr s => Ok (split_on "." s)
  | _ => Raise AttributeError
  end.

(** [l[i]] on a list. *)
Definition py_index {A} (l : list A) (i : nat) : result A :=
  match nth_error l i with
  | Some x => Ok x
  | None => Raise IndexError
  end.

(** ["=" * n] *)
Fixpoint str_repeat (c : ascii) (n : nat) : string :=
  match n with
  | O => EmptyString
  | S n' => String c (str_repeat c n')
  end.

(** The characters [str.strip()] removes, among U+0000..U+00FF. *)
Definition is_space (a : ascii) : bool :=
  let n := N_of_ascii a in
  (((9 <=? n) && (n <=? 13)) || ((28 <=? n) && (n <=? 32))
   || (n =? 133) || (n =? 160))%N.

Fixpoint lstrip (s : string) : string :=
  match s with
  | EmptyString => EmptyString
  | String a s' => if is_space a then lstrip s' else s
  end.

Fixpoint rstrip (s : string) : string :=
  match s with
  | EmptyString => EmptyString
  | String a s' =>
      match rstrip s' with
      | EmptyString => if is_space a then EmptyString else String a EmptyString
      | r => String a r
      end
  end.

Definition strip (s : string) : string := rstrip (lstrip s).


(** ** The libraries the program calls

    [json], [base64] and the Ed25519 signature of [cryptography] are taken
    as an interface: the properties of the program's control flow hold for
    every implementation.  [None] is a raised [ValueError]. A reference
    implementation, [cpython], is given below. *)
Class PyLib : Type := {
  (** [json.load(f)], [json.loads(s)] and [Response.json()] on a text *)
  json_loads : string -> option pyval;
  (** [json.loads(b)] on [bytes] *)
  json_loads_bytes : string -> option pyval;
  (** the text [json.dump(obj, f, indent=2)] writes *)
  json_dumps : pyval -> string;
  (** [base64.b64decode(s)] on a [str] *)
  b64decode : string -> option string;
  (** [base64.b64encode(b).decode()] *)
  b64encode : string -> string;
  (** [Ed25519PrivateKey.sign]: key, message, signature *)
  ed25519_sign : string -> string -> string
}.

(** ** The world *)

Inductive path : Type := AUTH_FILE | PRIVATE_KEY_FILE | PUBLIC_KEY_FILE.

Definition path_eqb (p q : path) : bool :=
  match p, q with
  | AUTH_FILE, AUTH_FILE => true
  | PRIVATE_KEY_FILE, PRIVATE_KEY_FILE => true
  | PUBLIC_KEY_FILE, PUBLIC_KEY_FILE => true
  | _, _ => false
  end.

(** A file is missing, or exists and cannot be opened or read (permissions,
    I/O error, undecodable text), or has a content. *)
Inductive file : Type :=
| Missing
| Unreadable
| Content (data : string).

Inductive http_method : Type := GET | POST | PUT.

(** A request of [requests.get/post/put]: the [Authorization] header is
    [f"Bearer {token}"], recorded by its token. *)
Record request : Type := {
  rq_method : http_method;
  rq_url : string;
  rq_bearer : option pyval;
  rq_params : pyval;
  rq_json : option pyval
}.

Record response : Type := {
  status_code : Z;
  text : string
}.

Inductive reply : Type :=
| Reply (r : response)
| NoReply.

Inductive event : Type :=
| EvOpenRead (p : path)
| EvOpenWrite (p : path)
| EvHttp (r : request)
| EvStderr (line : string).

(** [server] is what the remote service will answer to the next requests,
    in order; [events] is what the program has done so far, oldest first. *)
Record World : Type := {
  fs : path -> file;
  now : Q;
  server : list reply;
  events : list event
}.

Definition log (e : event) (w : World) : World :=
  {| fs := fs w; now := now w; server := server w;
     events := events w ++ [e] |}.

Definition set_file (p : path) (f : file) (w : World) : World :=
  {| fs := fun q => if path_eqb q p then f else fs w q;
     now := now w; server := server w; events := events w |}.

Definition set_server (s : list reply) (w : World) : World :=
  {| fs := fs w; now := now w; server := s; events := events w |}.

(** ** The monad of the program: state and exceptions *)

Definition M (A : Type) : Type := World -> result A * World.

Definition ret {A} (a : A) : M A := fun w => (Ok a, w).

Definition raise {A} (e : exn) : M A := fun w => (Raise e, w).

Definition bind {A B} (m : M A) (k : A -> M B) : M B :=
  fun w =>
    match m w with
    | (Ok a, w') => k a w'
    | (Raise e, w') => (Raise e, w')
    end.

Definition lift {A} (r : result A) : M A := fun w => (r, w).

(** [try: m  except Exception: h] *)
Definition try_except {A} (m : M A) (h : exn -> M A) : M A :=
  fun w =>
    match m w with
    | (Ok a, w') => (Ok a, w')
    | (Raise e, w') => h e w'
    end.

Declare Scope py_scope.
Delimit Scope py_scope with py.
Notation "x <- m ;; k" := (bind m (fun x => k))
  (at level 61, m at next level, right associativity) : py_scope.
Notation "' pat <- m ;; k" := (bind m (fun x => match x with pat => k end))
  (at level 61, pat pattern, m at next level, right associativity) : py_scope.
Local Open Scope py_scope.

(** *** Primitive operations *)

(** [os.path.exists(p)] *)
Definition path_exists (p : path) : M bool :=
  fun w =>
    match fs w p with
    | Missing => (Ok false, w)
    | _ => (Ok true, w)
    end.

(** [with open(p) as f: f.read()] *)
Definition open_read (p : path) : M string :=
  fun w =>
    match fs w p with
    | Content data => (Ok data, log (EvOpenRead p) w)
    | _ => (Raise OSError, log (EvOpenRead p) w)
    end.

(** [with open(p, "w") as f: f.write(data)] *)
Definition open_write (p : path) (data : string) : M unit :=
  fun w =>
    match fs w p with
    | Unreadable => (Raise OSError, log (EvOpenWrite p) w)
    | _ => (Ok tt, set_file p (Content data) (log (EvOpenWrite p) w))
    end.

(** [time.time()] *)
Definition time_time : M Q := fun w => (Ok (now w), w).

(** [print(line, file=sys.stderr)] *)
Definition print_stderr (line : string) : M unit :=
  fun w => (Ok tt, log (EvStderr line) w).

(** [requests.request(...)]: the request is sent, the service answers or
    the transport fails. *)
Definition http (rq : request) : M response :=
  fun w =>
    let w' := log (EvHttp rq) w in
    match server w' with
    | Reply r :: rest => (Ok r, set_server rest w')
    | NoReply :: rest => (Raise RequestException, set_server rest w')
    | [] => (Raise RequestException, w')
    end.

(** [Response.ok]: no client or server error. *)
Definition ok (r : response) : bool :=
  negb ((400 <=? status_code r) && (status_code r <? 600)).

(** [Response.raise_for_status()]: an [HTTPError] that carries the response
    for a status in 400..599. *)
Definition raise_for_status (r : response) : M unit :=
  if ok r then ret tt else raise (HTTPError (status_code r) (text r)).

(** [Ed25519PrivateKey.from_private_bytes(data)]: a key is 32 bytes. *)
Definition from_private_bytes (data : string) : result string :=
  if (String.length data =? 32)%nat then Ok data else Raise ValueError.

(** ** The program *)

Definition BASE_URL : string := "https://gather.is".

Section Program.

Context {L : PyLib}.

(** [Response.json()] *)
Definition resp_json (r : response) : M pyval :=
  match json_loads (text r) with
  | Some v => ret v
  | None => raise ValueError
  end.

(** [base64.b64decode(v)]: [v] must be a [str] (of ASCII characters). *)
Definition py_b64decode (v : pyval) : result string :=
  match v with
  | PyStr s =>
      match b64decode s with
      | Some b => Ok b
      | None => Raise ValueError
      end
  | _ => Raise TypeError
  end.

(** [json.loads(b)] on the [bytes] that [b64decode] returned *)
Definition py_json_loads_bytes (b : string) : result pyval :=
  match json_loads_bytes b with
  | Some v => Ok v
  | None => Raise ValueError
  end.

Definition requests_post (url : string) (bearer : option pyval) (json : pyval)
  : M response :=
  http {| rq_method := POST; rq_url := url; rq_bearer := bearer;
          rq_params := PyNone; rq_json := Some json |}.

Definition requests_put (url : string) (bearer : option pyval) (json : pyval)
  : M response :=
  http {| rq_method := PUT; rq_url := url; rq_bearer := bearer;
          rq_params := PyNone; rq_json := Some json |}.

Definition requests_get (url : string) (bearer : option pyval) (params : pyval)
  : M response :=
  http {| rq_method := GET; rq_url := url; rq_bearer := bearer;
          rq_params := params; rq_json := None |}.

(** [load_keys()], lines 22-28. *)
Definition load_keys : M (string * string) :=
  raw <- open_read PRIVATE_KEY_FILE ;;
  private_key <- lift (from_private_bytes (substring 0 32 raw)) ;;
  pem <- open_read PUBLIC_KEY_FILE ;;
  ret (private_key, strip pem).

(** The cache write of [authenticate()], lines 53-54:
    [with open(AUTH_FILE, "w") as f: json.dump(auth, f, indent=2)]. *)
Definition save (auth : pyval) : M unit :=
  open_write AUTH_FILE (json_dumps auth).

(** The cache read of [get_token()], lines 61-62:
    [with open(AUTH_FILE) as f: auth = json.load(f)]. *)
Definition load : M pyval :=
  data <- open_read AUTH_FILE ;;
  match json_loads data with
  | Some v => ret v
  | None => raise ValueError
  end.

(** [authenticate()], lines 30-56. *)
Definition authenticate : M pyval :=
  ' (private_key, public_pem) <- load_keys ;;
  resp <- requests_post (BASE_URL ++ "/api/agents/challenge") None
            (PyDict [("public_key", PyStr public_pem)]) ;;
  _ <- raise_for_status resp ;;
  challenge <- resp_json resp ;;
  nonce_b64 <- lift (py_getitem challenge "nonce") ;;
  nonce_bytes <- lift (py_b64decode nonce_b64) ;;
  let signature := ed25519_sign private_key nonce_bytes in
  let sig_b64 := b64encode signature in
  resp <- requests_post (BASE_URL ++ "/api/agents/authenticate") None
            (PyDict [("public_key", PyStr public_pem);
                     ("signature", PyStr sig_b64)]) ;;
  _ <- raise_for_status resp ;;
  auth <- resp_json resp ;;
  _ <- save auth ;;
  lift (py_getitem auth "token").

(** The first three statements of the [try] block of [get_token()], lines
    66-68: the claims of a token. *)
Definition decode_claims (token : pyval) : result pyval :=
  rbind (py_split_dot token) (fun parts =>
  rbind (py_index parts 1) (fun payload =>
  let payload :=
    payload ++ str_repeat "=" (4 - (String.length payload) mod 4) in
  rbind (py_b64decode (PyStr payload)) (fun raw =>
  py_json_loads_bytes raw))).

(** The [try] block of [get_token()], lines 65-72: [Some token] when the
    block returns the token, [None] when control leaves the block, with or
    without an exception. *)
Definition check_expiry (token : pyval) : M (option pyval) :=
  try_except
    (claims <- lift (decode_claims token) ;;
     exp <- lift (py_get claims "exp" (PyInt 0)) ;;
     t <- time_time ;;
     fresh <- lift (py_gt exp (t + 120)%Q) ;;
     if fresh : bool then ret (Some token) else ret None)
    (fun _ => ret None).

(** [get_token()], lines 58-73. *)
Definition get_token : M pyval :=
  cached <- path_exists AUTH_FILE ;;
  if cached : bool then
    auth <- load ;;
    token <- lift (py_get auth "token" (PyStr "")) ;;
    r <- check_expiry token ;;
    match r with
    | Some tok => ret tok
    | None => authenticate
    end
  else authenticate.

(** [api_get(path, params=None)], lines 75-81. *)
Definition api_get (path : string) (params : pyval) : M pyval :=
  token <- get_token ;;
  resp <- requests_get (BASE_URL ++ path) (Some token) params ;;
  _ <- raise_for_status resp ;;
  resp_json resp.

(** The diagnostic line of [api_post] and [api_put]:
    [f"ERROR {resp.status_code}: {resp.text}"]. *)
Definition error_line (r : response) : string :=
  "ERROR " ++ Z_to_string (status_code r) ++ ": " ++ text r.

(** [api_post(path, data)], lines 83-91. *)
Definition api_post (path : string) (data : pyval) : M pyval :=
  token <- get_token ;;
  resp <- requests_post (BASE_URL ++ path) (Some token) data ;;
  _ <- (if ok resp then ret tt else print_stderr (error_line resp)) ;;
  _ <- raise_for_status resp ;;
  resp_json resp.

(** [api_put(path, data=None)], lines 93-101. *)
Definition api_put (path : string) (data : pyval) : M pyval :=
  token <- get_token ;;
  resp <- requests_put (BASE_URL ++ path) (Some token)
            (if py_truthy data then data else PyDict []) ;;
  _ <- (if ok resp then ret tt else print_stderr (error_line resp)) ;;
  _ <- raise_for_status resp ;;
  resp_json resp.

(** The decision of the [try] block at time [t], as a function. *)
Definition token_fresh (t : Q) (token : pyval) : bool :=
  match decode_claims token with
  | Ok claims =>
      match py_get claims "exp" (PyInt 0) with
      | Ok exp =>
          match py_gt exp (t + 120)%Q with
          | Ok fresh => fresh
          | Raise _ => false
          end
      | Raise _ => false
      end
  | Raise _ => false
  end.

End Program.

(** ** A reference implementation of the libraries

    [base64] and [json] as CPython implements them, on the texts of the
    model.  Outside the reference: code points above U+00FF (a [\uXXXX]
    escape of one is refused), texts in UTF-16 or UTF-32, the rounding of
    floats, the recursion limit. *)
Module CPython.

(** *** base64 *)

Definition b64_value (a : ascii) : option N :=
  let n := N_of_ascii a in
  (if (65 <=? n) && (n <=? 90) then Some (n - 65)
   else if (97 <=? n) && (n <=? 122) then Some (n - 71)
   else if (48 <=? n) && (n <=? 57) then Some (n + 4)
   else if n =? 43 then Some 62
   else if n =? 47 then Some 63
   else None)%N.

Definition byte_of (n : N) : ascii := ascii_of_N (n mod 256).

(** [binascii.a2b_base64] without [strict_mode]: a character outside the
    alphabet is skipped, and so is a pad that does not close a quad; a pad
    sequence that closes a quad ends the input; data that stops inside a
    quad is an error. *)
Fixpoint a2b_base64 (s : string) (quad_pos : nat) (leftchar : N) (pads : nat)
  : option string :=
  match s with
  | EmptyString => if (quad_pos =? 0)%nat then Some EmptyString else None
  | String c s' =>
      if Ascii.eqb c "=" then
        if ((2 <=? quad_pos) && (4 <=? quad_pos + S pads))%nat
        then Some EmptyString
        else a2b_base64 s' quad_pos leftchar
               (if (2 <=? quad_pos)%nat then S pads else pads)
      else
        match b64_value c with
        | None => a2b_base64 s' quad_pos leftchar pads
        | Some v =>
            match quad_pos with
            | 0%nat => a2b_base64 s' 1%nat v 0%nat
            | 1%nat =>
                option_map
                  (String (byte_of (N.lor (N.shiftl leftchar 2) (N.shiftr v 4))))
                  (a2b_base64 s' 2%nat (N.land v 15) 0%nat)
            | 2%nat =>
                option_map
                  (String (byte_of (N.lor (N.shiftl leftchar 4) (N.shiftr v 2))))
                  (a2b_base64 s' 3%nat (N.land v 3) 0%nat)
            | _ =>
                option_map
                  (String (byte_of (N.lor (N.shiftl leftchar 6) v)))
                  (a2b_base64 s' 0%nat 0%N 0%nat)
            end
        end
  end.

Fixpoint all_ascii (s : string) : bool :=
  match s with
  | EmptyString => true
  | String c s' => (N_of_ascii c <? 128)%N && all_ascii s'
  end.

(** [base64.b64decode(s)] for a [str]: a non-ASCII character is a
    [ValueError]. *)
Definition b64decode (s : string) : option string :=
  if all_ascii s then a2b_base64 s 0%nat 0%N 0%nat else None.

(** [base64.urlsafe_b64decode(s)]: [-] and [_] stand for [+] and [/]. *)
Fixpoint urlsafe_translate (s : string) : string :=
  match s with
  | EmptyString => EmptyString
  | String c s' =>
      String (if Ascii.eqb c "-" then "+"%char
              else if Ascii.eqb c "_" then "/"%char else c)
             (urlsafe_translate s')
  end.

Definition urlsafe_b64decode (s : string) : option string :=
  b64decode (urlsafe_translate s).

Definition b64_char (n : N) : ascii :=
  (if n <? 26 then ascii_of_N (n + 65)
   else if n <? 52 then ascii_of_N (n + 71)
   else if n <? 62 then ascii_of_N (n - 4)
   else if n =? 62 then "+"%char else "/"%char)%N.

Fixpoint b64encode (s : string) : string :=
  match s with
  | EmptyString => EmptyString
  | String a EmptyString =>
      let x := N_of_ascii a in
      String (b64_char (N.shiftr x 2))
        (String (b64_char (N.shiftl (N.land x 3) 4)) "==")
  | String a (String b EmptyString) =>
      let x := N_of_ascii a in
      let y := N_of_ascii b in
      String (b64_char (N.shiftr x 2))
        (String (b64_char (N.lor (N.shiftl (N.land x 3) 4) (N.shiftr y 4)))
           (String (b64_char (N.shiftl (N.land y 15) 2)) "="))
  | String a (String b (String c s')) =>
      let x := N_of_ascii a in
      let y := N_of_ascii b in
      let z := N_of_ascii c in
      String (b64_char (N.shiftr x 2))
        (String (b64_char (N.lor (N.shiftl (N.land x 3) 4) (N.shiftr y 4)))
           (String (b64_char (N.lor (N.shiftl (N.land y 15) 2) (N.shiftr z 6)))
              (String (b64_char (N.land z 63)) (b64encode s'))))
  end.

(** *** json: reading *)

Definition is_ws (c : ascii) : bool :=
  Ascii.eqb c " " || Ascii.eqb c "009" || Ascii.eqb c "010" || Ascii.eqb c "013".

Fixpoint skip_ws (s : string) : string :=
  match s with
  | EmptyString => EmptyString
  | String c s' => if is_ws c then skip_ws s' else s
  end.

Fixpoint strip_prefix (p s : string) : option string :=
  match p with
  | EmptyString => Some s
  | String a p' =>
      match s with
      | EmptyString => None
      | String b s' => if Ascii.eqb a b then strip_prefix p' s' else None
      end
  end.

Definition hex_value (c : ascii) : option N :=
  let n := N_of_ascii c in
  (if (48 <=? n) && (n <=? 57) then Some (n - 48)
   else if (97 <=? n) && (n <=? 102) then Some (n - 87)
   else if (65 <=? n) && (n <=? 70) then Some (n - 55)
   else None)%N.

Definition hex4 (a b c d : ascii) : option N :=
  match hex_value a, hex_value b, hex_value c, hex_value d with
  | Some x, Some y, Some z, Some t => Some (((x * 16 + y) * 16 + z) * 16 + t)%N
  | _, _, _, _ => None
  end.

(** The character a backslash escape stands for. *)
Definition unescape (e : ascii) : option ascii :=
  if Ascii.eqb e dquote then Some dquote
  else if Ascii.eqb e "\" then Some "\"%char
  else if Ascii.eqb e "/" then Some "/"%char
  else if Ascii.eqb e "b" then Some "008"%char
  else if Ascii.eqb e "f" then Some "012"%char
  else if Ascii.eqb e "n" then Some "010"%char
  else if Ascii.eqb e "r" then Some "013"%char
  else if Ascii.eqb e "t" then Some "009"%char
  else None.

Definition cons_char (c : ascii) (r : option (string * string))
  : option (string * string) :=
  match r with
  | Some (str, rest) => Some (String c str, rest)
  | None => None
  end.

(** [scanstring] in strict mode, after the opening quote: the string and
    what follows its closing quote. *)
Fixpoint scan_string (s : string) : option (string * string) :=
  match s with
  | EmptyString => None
  | String c s' =>
      if Ascii.eqb c dquote then Some (EmptyString, s')
      else if Ascii.eqb c "\" then
        match s' with
        | EmptyString => None
        | String e s'' =>
            if Ascii.eqb e "u" then
              match s'' with
              | String h1 (String h2 (String h3 (String h4 r))) =>
                  match hex4 h1 h2 h3 h4 with
                  | Some n =>
                      if (n <? 256)%N
                      then cons_char (ascii_of_N n) (scan_string r)
                      else None
                  | None => None
                  end
              | _ => None
              end
            else
              match unescape e with
              | Some ch => cons_char ch (scan_string s'')
              | None => None
              end
        end
      else if (N_of_ascii c <? 32)%N then None
      else cons_char c (scan_string s')
  end.

Definition digit_of (c : ascii) : option (uint -> uint) :=
  (if Ascii.eqb c "0" then Some D0
   else if Ascii.eqb c "1" then Some D1
   else if Ascii.eqb c "2" then Some D2
   else if Ascii.eqb c "3" then Some D3
   else if Ascii.eqb c "4" then Some D4
   else if Ascii.eqb c "5" then Some D5
   else if Ascii.eqb c "6" then Some D6
   else if Ascii.eqb c "7" then Some D7
   else if Ascii.eqb c "8" then Some D8
   else if Ascii.eqb c "9" then Some D9
   else None)%char.

(** The longest run of digits at the head of [s]. *)
Fixpoint scan_digits (s : string) : uint * string :=
  match s with
  | EmptyString => (Nil, EmptyString)
  | String c s' =>
      match digit_of c with
      | Some D => let (d, r) := scan_digits s' in (D d, r)
      | None => (Nil, s)
      end
  end.

(** The integer part of a number: [0|[1-9]\d*]. *)
Definition scan_int_part (s : string) : option (uint * string) :=
  match s with
  | String c s' =>
      if Ascii.eqb c "0" then Some (D0 Nil, s')
      else match scan_digits s with
           | (Nil, _) => None
           | (d, r) => Some (d, r)
           end
  | EmptyString => None
  end.

(** The optional fraction: [(\.\d+)?]. *)
Definition scan_frac (s : string) : option uint * string :=
  match s with
  | String c s' =>
      if Ascii.eqb c "." then
        match scan_digits s' with
        | (Nil, _) => (None, s)
        | (d, r) => (Some d, r)
        end
      else (None, s)
  | EmptyString => (None, s)
  end.

(** The optional exponent: [([eE][-+]?\d+)?]. *)
Definition scan_exp (s : string) : option Z * string :=
  match s with
  | String c s' =>
      if Ascii.eqb c "e" || Ascii.eqb c "E" then
        let '(neg, s'') :=
          match s' with
          | String sg t =>
              if Ascii.eqb sg "-" then (true, t)
              else if Ascii.eqb sg "+" then (false, t)
              else (false, s')
          | EmptyString => (false, s')
          end in
        match scan_digits s'' with
        | (Nil, _) => (None, s)
        | (d, r) => (Some (if neg : bool then - Z.of_uint d else Z.of_uint d), r)
        end
      else (None, s)
  | EmptyString => (None, s)
  end.

Definition signed (neg : bool) (z : Z) : Z := if neg then - z else z.

(** A number: an [int] when it has neither fraction nor exponent, a
    [float] otherwise. *)
Definition scan_number (s : string) : option (pyval * string) :=
  let '(neg, s1) :=
    match s with
    | String c s' => if Ascii.eqb c "-" then (true, s') else (false, s)
    | EmptyString => (false, s)
    end in
  match scan_int_part s1 with
  | None => None
  | Some (d, s2) =>
      let '(frac, s3) := scan_frac s2 in
      let '(ex, s4) := scan_exp s3 in
      match frac, ex with
      | None, None => Some (PyInt (signed neg (Z.of_uint d)), s4)
      | Some fd, None =>
          Some (PyFloat (FDec (signed neg (Z.of_uint (app d fd)))
                              (- Z.of_nat (nb_digits fd))), s4)
      | None, Some e =>
          Some (PyFloat (FDec (signed neg (Z.of_uint d)) e), s4)
      | Some fd, Some e =>
          Some (PyFloat (FDec (signed neg (Z.of_uint (app d fd)))
                              (e - Z.of_nat (nb_digits fd))), s4)
      end
  end.

(** A value that is neither a string, an array nor an object. *)
Definition scan_atom (s : string) : option (pyval * string) :=
  match strip_prefix "null" s with
  | Some r => Some (PyNone, r)
  | None =>
  match strip_prefix "true" s with
  | Some r => Some (PyBool true, r)
  | None =>
  match strip_prefix "false" s with
  | Some r => Some (PyBool false, r)
  | None =>
  match strip_prefix "NaN" s with
  | Some r => Some (PyFloat FNaN, r)
  | None =>
  match strip_prefix "Infinity" s with
  | Some r => Some (PyFloat FInf, r)
  | None =>
  match strip_prefix "-Infinity" s with
  | Some r => Some (PyFloat FNegInf, r)
  | None => scan_number s
  end end end end end end.

(** [scan_once]: the value at the head of [s] and what follows it.
    [parse_elems] reads the elements of an array from the head of an
    element, [parse_members] the members of an object from the head of a
    key; [fuel] bounds the nesting. *)
Fixpoint parse_value (fuel : nat) (s : string) {struct fuel}
  : option (pyval * string) :=
  match fuel with
  | O => None
  | S fuel' =>
      match s with
      | EmptyString => None
      | String c s' =>
          if Ascii.eqb c dquote then
            match scan_string s' with
            | Some (str, r) => Some (PyStr str, r)
            | None => None
            end
          else if Ascii.eqb c "[" then
            match skip_ws s' with
            | EmptyString => None
            | String c1 r1 as s1 =>
                if Ascii.eqb c1 "]" then Some (PyList [], r1)
                else parse_elems fuel' [] s1
            end
          else if Ascii.eqb c "{" then
            match skip_ws s' with
            | EmptyString => None
            | String c1 r1 as s1 =>
                if Ascii.eqb c1 "}" then Some (PyDict [], r1)
                else parse_members fuel' [] s1
            end
          else scan_atom s
      end
  end
with parse_elems (fuel : nat) (acc : list pyval) (s : string) {struct fuel}
  : option (pyval * string) :=
  match fuel with
  | O => None
  | S fuel' =>
      match parse_value fuel' s with
      | None => None
      | Some (v, r) =>
          match skip_ws r with
          | EmptyString => None
          | String c r1 =>
              if Ascii.eqb c "]" then Some (PyList (acc ++ [v]), r1)
              else if Ascii.eqb c ","
              then parse_elems fuel' (acc ++ [v]) (skip_ws r1)
              else None
          end
      end
  end
with parse_members (fuel : nat) (acc : list (string * pyval)) (s : string)
  {struct fuel} : option (pyval * string) :=
  match fuel with
  | O => None
  | S fuel' =>
      match s with
      | EmptyString => None
      | String q s1 =>
          if Ascii.eqb q dquote then
            match scan_string s1 with
            | None => None
            | Some (key, s2) =>
                match skip_ws s2 with
                | EmptyString => None
                | String c s3 =>
                    if Ascii.eqb c ":" then
                      match parse_value fuel' (skip_ws s3) with
                      | None => None
                      | Some (v, s4) =>
                          match skip_ws s4 with
                          | EmptyString => None
                          | String c' s5 =>
                              if Ascii.eqb c' "}"
                              then Some (PyDict (dict_set key v acc), s5)
                              else if Ascii.eqb c' ","
                              then parse_members fuel' (dict_set key v acc)
                                     (skip_ws s5)
                              else None
                          end
                      end
                    else None
                end
            end
          else None
      end
  end.

(** [json.loads(s)] for a [str]: one value between whitespace. *)
Definition json_loads (s : string) : option pyval :=
  match parse_value (S (String.length s)) (skip_ws s) with
  | Some (v, r) =>
      match skip_ws r with
      | EmptyString => Some v
      | _ => None
      end
  | None => None
  end.

(** The [str] that UTF-8 bytes encode, as far as U+00FF. *)
Fixpoint utf8_decode (b : string) : option string :=
  match b with
  | EmptyString => Some EmptyString
  | String c b' =>
      let n := N_of_ascii c in
      if (n <? 128)%N then option_map (String c) (utf8_decode b')
      else if ((n =? 194) || (n =? 195))%N then
        match b' with
        | String c2 b'' =>
            let m := N_of_ascii c2 in
            if ((128 <=? m) && (m <? 192))%N
            then option_map (String (ascii_of_N ((n - 192) * 64 + (m - 128))))
                            (utf8_decode b'')
            else None
        | EmptyString => None
        end
      else None
  end.

(** [json.loads(b)] for [bytes] in UTF-8. *)
Definition json_loads_bytes (b : string) : option pyval :=
  match utf8_decode b with
  | Some s => json_loads s
  | None => None
  end.

(** *** json: writing *)

Definition hex_digit (n : N) : ascii :=
  (if n <? 10 then ascii_of_N (n + 48) else ascii_of_N (n + 87))%N.

(** [ensure_ascii]: what is written for one character of a string. *)
Definition escape_char (c : ascii) : string :=
  if Ascii.eqb c dquote then String "\" (String dquote EmptyString)
  else if Ascii.eqb c "\" then "\\"
  else if Ascii.eqb c "010" then "\n"
  else if Ascii.eqb c "013" then "\r"
  else if Ascii.eqb c "009" then "\t"
  else if Ascii.eqb c "008" then "\b"
  else if Ascii.eqb c "012" then "\f"
  else
    let n := N_of_ascii c in
    if ((32 <=? n) && (n <=? 126))%N then String c EmptyString
    else "\u00"
         ++ String (hex_digit (n / 16)) (String (hex_digit (n mod 16)) "").

Fixpoint escape (s : string) : string :=
  match s with
  | EmptyString => EmptyString
  | String c s' => escape_char c ++ escape s'
  end.

Definition quote (s : string) : string :=
  String dquote (escape s ++ String dquote EmptyString).

(** A float is written with all its digits, in scientific notation
    (CPython writes the shortest decimal that reads back as the same
    float). *)
Definition float_repr (f : pyfloat) : string :=
  match f with
  | FDec m e => Z_to_string m ++ "e" ++ Z_to_string e
  | FInf => "Infinity"
  | FNegInf => "-Infinity"
  | FNaN => "NaN"
  end.

Definition newline_indent (lvl : nat) : string :=
  String "010" (str_repeat " " (2 * lvl)).

(** [JSONEncoder(indent=2).iterencode(v)] at nesting level [lvl]. *)
Fixpoint dump (lvl : nat) (v : pyval) {struct v} : string :=
  match v with
  | PyNone => "null"
  | PyBool true => "true"
  | PyBool false => "false"
  | PyInt z => Z_to_string z
  | PyFloat f => float_repr f
  | PyStr s => quote s
  | PyList [] => "[]"
  | PyList (x :: xs) =>
      "[" ++ newline_indent (S lvl) ++ dump (S lvl) x
      ++ (fix items (l : list pyval) : string :=
            match l with
            | [] => EmptyString
            | y :: ys =>
                "," ++ newline_indent (S lvl) ++ dump (S lvl) y ++ items ys
            end) xs
      ++ newline_indent lvl ++ "]"
  | PyDict [] => "{}"
  | PyDict ((k, x) :: xs) =>
      "{" ++ newline_indent (S lvl) ++ quote k ++ ": " ++ dump (S lvl) x
      ++ (fix members (l : list (string * pyval)) : string :=
            match l with
            | [] => EmptyString
            | (k', y) :: ys =>
                "," ++ newline_indent (S lvl) ++ quote k' ++ ": "
                ++ dump (S lvl) y ++ members ys
            end) xs
      ++ newline_indent lvl ++ "}"
  end.

(** The items of a list after the first and the members of a [dict] after
    the first, as [dump] writes them. *)
Fixpoint dump_items (lvl : nat) (l : list pyval) : string :=
  match l with
  | [] => EmptyString
  | y :: ys =>
      "," ++ newline_indent lvl ++ dump lvl y ++ dump_items lvl ys
  end.

Fixpoint dump_members (lvl : nat) (l : list (string * pyval)) : string :=
  match l with
  | [] => EmptyString
  | (k, y) :: ys =>
      "," ++ newline_indent lvl ++ quote k ++ ": " ++ dump lvl y
      ++ dump_members lvl ys
  end.

Definition json_dumps (v : pyval) : string := dump 0 v.

(** The head of a text is the head of a number. *)
Definition number_head (s : string) : bool :=
  match s with
  | EmptyString => false
  | String c s' =>
      if Ascii.eqb c "-" then
        match s' with
        | EmptyString => false
        | String c' _ =>
            match digit_of c' with Some _ => true | None => false end
        end
      else match digit_of c with Some _ => true | None => false end
  end.

(** What may follow a number: no digit, no fraction, no exponent. *)
Definition num_stop (s : string) : bool :=
  match s with
  | EmptyString => true
  | String c _ =>
      match digit_of c with
      | Some _ => false
      | None => negb (Ascii.eqb c "." || Ascii.eqb c "e" || Ascii.eqb c "E")
      end
  end.

(** The head of a text is neither whitespace nor a closing bracket. *)
Definition value_head (s : string) : bool :=
  match s with
  | EmptyString => false
  | String c _ =>
      negb (is_ws c) && negb (Ascii.eqb c "]") && negb (Ascii.eqb c "}")
  end.

Definition nonzero_head (d : uint) : bool :=
  match d with
  | Nil | D0 _ => false
  | _ => true
  end.

(** The text of an integer: an optional sign and digits without a
    leading zero. *)
Inductive int_text (z : Z) : string -> Prop :=
| int_text_zero : z = 0 -> int_text z "0"
| int_text_pos (d : uint) :
    nonzero_head d = true -> Z.of_uint d = z ->
    int_text z (NilEmpty.string_of_uint d)
| int_text_neg (d : uint) :
    nonzero_head d = true -> - Z.of_uint d = z ->
    int_text z (String "-" (NilEmpty.string_of_uint d)).

(** The signature itself is not computed: 64 bytes stand for it. *)
Definition ed25519_sign (key msg : string) : string :=
  str_repeat "000" 64.

End CPython.

(** The reference implementation as an instance of the interface. *)
Definition cpython : PyLib := {|
  json_loads := CPython.json_loads;
  json_loads_bytes := CPython.json_loads_bytes;
  json_dumps := CPython.json_dumps;
  b64decode := CPython.b64decode;
  b64encode := CPython.b64encode;
  ed25519_sign := CPython.ed25519_sign
|}.

(** ** Notions of the specification *)


(** The two worlds have the same files. *)
Definition same_files (w w' : World) : Prop := forall p, fs w' p = fs w p.

(** The events of [w'] that [w] does not have yet. *)
Definition new_events (w w' : World) (l : list event) : Prop :=
  events w' = (events w ++ l)%list.

Definition is_stderr (e : event) : bool :=
  match e with
  | EvStderr _ => true
  | _ => false
  end.

Definition is_http (e : event) : bool :=
  match e with
  | EvHttp _ => true
  | _ => false
  end.

(** The two requests of the challenge-response exchange. *)
Definition challenge_request (pem : string) : request :=
  {| rq_method := POST;
     rq_url := BASE_URL ++ "/api/agents/challenge";
     rq_bearer := None;
     rq_params := PyNone;
     rq_json := Some (PyDict [("public_key", PyStr pem)]) |}.

Definition authenticate_request (pem sig_b64 : string) : request :=
  {| rq_method := POST;
     rq_url := BASE_URL ++ "/api/agents/authenticate";
     rq_bearer := None;
     rq_params := PyNone;
     rq_json := Some (PyDict [("public_key", PyStr pem);
                              ("signature", PyStr sig_b64)]) |}.

(** The world after the keys are read and the challenge is answered. *)
Definition after_challenge (w : World) (pem : string) (rest : list reply)
  : World :=
  set_server rest
    (log (EvHttp (challenge_request (strip pem)))
       (log (EvOpenRead PUBLIC_KEY_FILE)
          (log (EvOpenRead PRIVATE_KEY_FILE) w))).

(** The world after the second request is answered. *)
Definition after_exchange (w : World) (pem sig_b64 : string)
  (rest : list reply) : World :=
  set_server rest
    (log (EvHttp (authenticate_request (strip pem) sig_b64))
       (after_challenge w pem rest)).

(** Both key files can be read and the private one has 32 bytes or more. *)
Definition key_files_usable (w : World) : bool :=
  match fs w PRIVATE_KEY_FILE, fs w PUBLIC_KEY_FILE with
  | Content raw, Content _ => (32 <=? String.length raw)%nat
  | _, _ => false
  end.



(** A status of the class 2xx. *)
Definition is_2xx (r : response) : bool :=
  (200 <=? status_code r) && (status_code r <? 300).


(** An object of Python: the keys of every [dict] in it are distinct. *)
Fixpoint fresh_key (k : string) (d : list (string * pyval)) : bool :=
  match d with
  | [] => true
  | (k', _) :: d' => negb (String.eqb k k') && fresh_key k d'
  end.

Fixpoint distinct_keys (d : list (string * pyval)) : bool :=
  match d with
  | [] => true
  | (k, _) :: d' => fresh_key k d' && distinct_keys d'
  end.

Fixpoint well_formed (v : pyval) : bool :=
  match v with
  | PyList l =>
      (fix all (l : list pyval) : bool :=
         match l with
         | [] => true
         | x :: xs => well_formed x && all xs
         end) l
  | PyDict d =>
      distinct_keys d &&
      (fix all (d : list (string * pyval)) : bool :=
         match d with
         | [] => true
         | (_, x) :: xs => well_formed x && all xs
         end) d
  | _ => true
  end.

(** A value is read back from what [dump] writes for it, whatever follows
    it that cannot continue a number. *)
Definition reads_back (v : pyval) : Prop :=
  forall (lvl : nat) (rest : string) (fuel : nat),
    well_formed v = true ->
    (String.length (CPython.dump lvl v) <= fuel)%nat ->
    CPython.num_stop rest = true ->
    CPython.parse_value fuel (CPython.dump lvl v ++ rest) = Some (v, rest).

(** The claims as the specification words them, for the cases in which the
    program differs. *)
Module AsStated.

(** Both round trips succeed and the body of the second lacks [token]: the
    operation fails and the credential file is as it was. *)
Definition missing_token_leaves_file : Prop :=
  forall (L : PyLib) (w : World) (raw pem : string) (r1 r2 : response)
         (rest : list reply) (challenge nonce_b64 : pyval) (nonce : string)
         (d : list (string * pyval)),
    fs w PRIVATE_KEY_FILE = Content raw ->
    (32 <= String.length raw)%nat ->
    fs w PUBLIC_KEY_FILE = Content pem ->
    server w = Reply r1 :: Reply r2 :: rest ->
    ok r1 = true ->
    json_loads (text r1) = Some challenge ->
    py_getitem challenge "nonce" = Ok nonce_b64 ->
    py_b64decode nonce_b64 = Ok nonce ->
    ok r2 = true ->
    json_loads (text r2) = Some (PyDict d) ->
    dict_lookup "token" d = None ->
    (exists e, fst (authenticate w) = Raise e) /\
    fs (snd (authenticate w)) AUTH_FILE = fs w AUTH_FILE.

(** The challenge endpoint answers with a status outside 2xx: the
    operation fails with that status and body, and the credential file is
    as it was. *)
Definition non_2xx_challenge_fails : Prop :=
  forall (L : PyLib) (w : World) (raw pem : string) (r : response)
         (rest : list reply),
    fs w PRIVATE_KEY_FILE = Content raw ->
    (32 <= String.length raw)%nat ->
    fs w PUBLIC_KEY_FILE = Content pem ->
    server w = Reply r :: rest ->
    is_2xx r = false ->
    fst (authenticate w) = Raise (HTTPError (status_code r) (text r)) /\
    fs (snd (authenticate w)) AUTH_FILE = fs w AUTH_FILE.

(** The credential file is valid JSON without a [token] key: [get_token]
    goes on to authenticate, as if there were no file. *)
Definition tokenless_json_reauthenticates : Prop :=
  forall (L : PyLib) (w : World) (data : string) (auth : pyval),
    fs w AUTH_FILE = Content data ->
    json_loads data = Some auth ->
    (forall d, auth = PyDict d -> dict_lookup "token" d = None) ->
    get_token w = authenticate (log (EvOpenRead AUTH_FILE) w).




End AsStated.

(** ** Concrete worlds *)
Module Examples.

Definition nl : string := String "010" EmptyString.

Definition key32 : string := "0123456789abcdef0123456789abcdef".

(** The private-key file: the key and 32 more bytes. *)
Definition private_key_data : string :=
  key32 ++ "0123456789abcdef0123456789abcdef".

Definition pem : string :=
  "-----BEGIN PUBLIC KEY-----" ++ nl
  ++ "MCowBQYDK2VwAyEAGb9ECWmEzf6FQbrBZ9w7lshQhqowtrbLDFw4rXAxZuE=" ++ nl
  ++ "-----END PUBLIC KEY-----".

Definition public_key_data : string := pem ++ nl.

(** Tokens: header, payload, signature. The payloads are
    [{"exp":9999999999}], [{"exp":1700000100}], [{"exp":1700000120}] and
    [{"exp":9999999999,"sub":"a>b"}] in base64url. *)
Definition fresh_token : string :=
  "eyJhbGciOiJFZERTQSJ9.eyJleHAiOjk5OTk5OTk5OTl9.c2ln".

Definition stale_token : string :=
  "eyJhbGciOiJFZERTQSJ9.eyJleHAiOjE3MDAwMDAxMDB9.c2ln".


Definition urlsafe_payload : string :=
  "eyJleHAiOjk5OTk5OTk5OTksInN1YiI6ImE-YiJ9".

Definition urlsafe_token : string :=
  "eyJhbGciOiJFZERTQSJ9." ++ urlsafe_payload ++ ".c2ln".

(** [{"k": "v"}] *)
Definition json_object (k v : string) : string :=
  "{" ++ CPython.quote k ++ ": " ++ CPython.quote v ++ "}".

Definition credential (token : string) : string := json_object "token" token.

Definition reply_of (status : Z) (body : string) : reply :=
  Reply {| status_code := status; text := body |}.

Definition nonce_body : string := json_object "nonce" "AAECAwQFBgc=".

Definition token_body : string := credential fresh_token.

Definition service : list reply :=
  [reply_of 200 nonce_body; reply_of 200 token_body].

Definition no_token_service : list reply :=
  [reply_of 200 nonce_body; reply_of 200 (json_object "status" "ok")].

Definition forbidden_body : string := json_object "error" "forbidden".

Definition forbidden : list reply := [reply_of 403 forbidden_body].

(** [{"exp":9999999999,"sub":"a>b"}] *)
Definition urlsafe_claims : string :=
  "{" ++ CPython.quote "exp" ++ ":9999999999," ++ CPython.quote "sub" ++ ":"
  ++ CPython.quote "a>b" ++ "}".

(** The clock reads 1700000000; both key files are in place. *)
Definition world (auth : file) (srv : list reply) : World :=
  {| fs := fun p =>
             match p with
             | AUTH_FILE => auth
             | PRIVATE_KEY_FILE => Content private_key_data
             | PUBLIC_KEY_FILE => Content public_key_data
             end;
     now := 1700000000 # 1;
     server := srv;
     events := [] |}.

End Examples.

(** ** The command line *)

(** What a run of the script ends with when no exception escapes: the text
    it printed to the standard output (the argument of its one [print]), or
    [sys.exit(status)]. *)
Inductive outcome : Type :=
| Printed (text : string)
| Exit (status : Z).

(** [token[:20] + "..."]: defined on a [str]; a [TypeError] on the other
    values of JSON (on a [dict] a [KeyError] from Python 3.12 on). *)
Definition token_preview (token : pyval) : result string :=
  match token with
  | PyStr s => Ok (substring 0 20 s ++ "...")
  | _ => Raise TypeError
  end.

(** [sys.argv[i] if len(sys.argv) > i else default] *)
Definition argv_or (argv : list string) (i : nat) (default : string) : string :=
  match nth_error argv i with
  | Some a => a
  | None => default
  end.

(** The [params] of [get_messages], lines 128-131: [since] is the fourth
    argument or [None], and is added when it is true (a string that is not
    empty). *)
Definition messages_params (argv : list string) : pyval :=
  match nth_error argv 3 with
  | Some since =>
      if String.eqb since "" then PyDict [("limit", PyInt 50)]
      else PyDict (dict_set "since" (PyStr since) [("limit", PyInt 50)])
  | None => PyDict [("limit", PyInt 50)]
  end.

Section Main.

Context {L : PyLib}.

(** [json.dumps(obj)], with the default separators *)
Variable json_dumps_compact : pyval -> string.

(** The block under [if __name__ == "__main__":], lines 103-145; [argv] is
    [sys.argv]. *)
Definition main (argv : list string) : M outcome :=
  let cmd := argv_or argv 1 "auth" in
  if String.eqb cmd "auth" then
    token <- get_token ;;
    preview <- lift (token_preview token) ;;
    ret (Printed (json_dumps_compact
                    (PyDict [("token", PyStr preview);
                             ("status", PyStr "ok")])))
  else if String.eqb cmd "create_channel" then
    name <- lift (py_index argv 2) ;;
    let desc := argv_or argv 3 "" in
    result <- api_post "/api/channels"
                (PyDict [("name", PyStr name); ("description", PyStr desc)]) ;;
    ret (Printed (json_dumps result))
  else if String.eqb cmd "send_message" then
    channel_id <- lift (py_index argv 2) ;;
    body <- lift (py_index argv 3) ;;
    result <- api_post ("/api/channels/" ++ channel_id ++ "/messages")
                (PyDict [("body", PyStr body)]) ;;
    ret (Printed (json_dumps result))
  else if String.eqb cmd "get_channels" then
    result <- api_get "/api/channels" PyNone ;;
    ret (Printed (json_dumps result))
  else if String.eqb cmd "get_messages" then
    channel_id <- lift (py_index argv 2) ;;
    result <- api_get ("/api/channels/" ++ channel_id ++ "/messages")
                (messages_params argv) ;;
    ret (Printed (json_dumps result))
  else if String.eqb cmd "get_balance" then
    result <- api_get "/api/balance" PyNone ;;
    ret (Printed (json_dumps result))
  else if String.eqb cmd "me" then
    result <- api_get "/api/agents/me" PyNone ;;
    ret (Printed (json_dumps result))
  else
    _ <- print_stderr ("Unknown command: " ++ cmd) ;;
    ret (Exit 1).

End Main.

(** The commands of the script. *)
Definition commands : list string :=
  ["auth"; "create_channel"; "send_message"; "get_channels"; "get_messages";
   "get_balance"; "me"].

(** [json.dumps(obj)] as CPython writes it: [", "] between items, [": "]
    after a key. *)
Module CPythonDumps.

Fixpoint dumps (v : pyval) {struct v} : string :=
  match v with
  | PyNone => "null"
  | PyBool true => "true"
  | PyBool false => "false"
  | PyInt z => Z_to_string z
  | PyFloat f => CPython.float_repr f
  | PyStr s => CPython.quote s
  | PyList [] => "[]"
  | PyList (x :: xs) =>
      "[" ++ dumps x
      ++ (fix items (l : list pyval) : string :=
            match l with
            | [] => EmptyString
            | y :: ys => ", " ++ dumps y ++ items ys
            end) xs
      ++ "]"
  | PyDict [] => "{}"
  | PyDict ((k, x) :: xs) =>
      "{" ++ CPython.quote k ++ ": " ++ dumps x
      ++ (fix members (l : list (string * pyval)) : string :=
            match l with
            | [] => EmptyString
            | (k', y) :: ys =>
                ", " ++ CPython.quote k' ++ ": " ++ dumps y ++ members ys
            end) xs
      ++ "}"
  end.

End CPythonDumps.

(** ** What a run may change *)

(** From [w] to [w']: the clock and the key files are as they were, the
    events of [w] are the first events of [w'], at most [n] of the new
    events are requests, and the service has given at most one answer for
    each of them. *)
Definition evolves (n : nat) (w w' : World) : Prop :=
  now w' = now w /\
  (forall p, p <> AUTH_FILE -> fs w' p = fs w p) /\
  exists (l : list event) (used : list reply),
    events w' = (events w ++ l)%list /\
    server w = (used ++ server w')%list /\
    (List.length used <= List.length (filter is_http l))%nat /\
    (List.length (filter is_http l) <= n)%nat.

(** Every run of [m] takes the world to one it [evolves] to. *)
Definition within (n : nat) {A : Type} (m : M A) : Prop :=
  forall w, evolves n w (snd (m w)).

(** Every event that a run of [m] adds satisfies [P]. *)
Definition emits (P : event -> Prop) {A : Type} (m : M A) : Prop :=
  forall w, exists l : list event,
    events (snd (m w)) = (events w ++ l)%list /\ Forall P l.

(** Nothing is written to the standard error. *)
Definition silent (e : event) : Prop := is_stderr e = false.

(** What the script does to its surroundings: it reads its three files,
    writes the credential file only, sends requests to the API of the
    service only, without a bearer token to the agent endpoints only, and
    prints to the standard error the two kinds of line of lines 89, 99
    and 144. *)
Definition permitted (e : event) : Prop :=
  match e with
  | EvOpenRead _ => True
  | EvOpenWrite p => p = AUTH_FILE
  | EvHttp rq =>
      prefix (BASE_URL ++ "/api/") (rq_url rq) = true /\
      (rq_bearer rq = None ->
       rq_method rq = POST /\
       prefix (BASE_URL ++ "/api/agents/") (rq_url rq) = true)
  | EvStderr line =>
      prefix "ERROR " line = true \/ prefix "Unknown command: " line = true
  end.

(** ** Tokens and base64 *)

(** No character of [s] is the separator of [split]. *)
Fixpoint dot_free (s : string) : bool :=
  match s with
  | EmptyString => true
  | String c s' => negb (Ascii.eqb c ".") && dot_free s'
  end.

(** [s.rstrip("=")]: base64 without its padding, as a token carries it. *)
Fixpoint rstrip_pad (s : string) : string :=
  match s with
  | EmptyString => EmptyString
  | String c s' =>
      match rstrip_pad s' with
      | EmptyString =>
          if Ascii.eqb c "=" then EmptyString else String c EmptyString
      | r => String c r
      end
  end.

(** [payload += "=" * (4 - len(payload) % 4)], line 67. *)
Definition padded (payload : string) : string :=
  payload ++ str_repeat "=" (4 - (String.length payload) mod 4).

(** The values of a byte. *)
Definition byte_values : list N := map N.of_nat (seq 0 256).

(** A character of base64 text that is neither the pad nor the
    separator of a token, and stands for the value [v]. *)
Definition reads (c : ascii) (v : N) : bool :=
  negb (Ascii.eqb c "=") && negb (Ascii.eqb c ".")
  && (N_of_ascii c <? 128)%N
  && match CPython.b64_value c with
     | Some v' => (v' =? v)%N
     | None => false
     end.

(** What reading back the characters of [b64encode] needs of one byte
    [x]: as the first byte of a group, as the last byte of a text of one
    or two bytes more than a multiple of three, as the third byte. *)
Definition single_ok (x : N) : bool :=
  let v1 := N.shiftr x 2 in
  let v2 := N.shiftl (N.land x 3) 4 in
  let v3 := N.shiftl (N.land x 15) 2 in
  let v4 := N.land x 63 in
  reads (CPython.b64_char v1) v1
  && reads (CPython.b64_char v2) v2
  && Ascii.eqb (CPython.byte_of (N.lor (N.shiftl v1 2) (N.shiftr v2 4)))
               (ascii_of_N x)
  && reads (CPython.b64_char v3) v3
  && Ascii.eqb
       (CPython.byte_of (N.lor (N.shiftl (N.shiftr x 4) 4) (N.shiftr v3 2)))
       (ascii_of_N x)
  && reads (CPython.b64_char v4) v4
  && Ascii.eqb (CPython.byte_of (N.lor (N.shiftl (N.shiftr x 6) 6) v4))
               (ascii_of_N x).

(** And of two bytes that follow each other, as first and second and as
    second and third. *)
Definition pair_ok (x y : N) : bool :=
  let v2 := N.lor (N.shiftl (N.land x 3) 4) (N.shiftr y 4) in
  let v3 := N.lor (N.shiftl (N.land x 15) 2) (N.shiftr y 6) in
  reads (CPython.b64_char v2) v2
  && Ascii.eqb
       (CPython.byte_of (N.lor (N.shiftl (N.shiftr x 2) 2) (N.shiftr v2 4)))
       (ascii_of_N x)
  && (N.land v2 15 =? N.shiftr y 4)%N
  && reads (CPython.b64_char v3) v3
  && Ascii.eqb
       (CPython.byte_of (N.lor (N.shiftl (N.shiftr x 4) 4) (N.shiftr v3 2)))
       (ascii_of_N x)
  && (N.land v3 3 =? N.shiftr y 6)%N.

(** ** Parts of the exchange and of the expiry check *)

Section Parts.

Context {L : PyLib}.

(** The nonce of a challenge response, lines 36-38:
    [base64.b64decode(resp.json()["nonce"])]. *)
Definition challenge_nonce (r : response) : result string :=
  match json_loads (text r) with
  | Some challenge =>
      rbind (py_getitem challenge "nonce") py_b64decode
  | None => Raise ValueError
  end.

(** The claims of a token have no expiry that line 69 can compare at time
    [t]: they are not a [dict]; or they have no [exp], which then counts as
    0, and [t + 120] is not negative; or their [exp] is not a number. *)
Inductive no_usable_exp (t : Q) (token : pyval) : Prop :=
| claims_not_dict (claims : pyval) :
    decode_claims token = Ok claims ->
    (forall c, claims <> PyDict c) ->
    no_usable_exp t token
| exp_missing (c : list (string * pyval)) :
    decode_claims token = Ok (PyDict c) ->
    dict_lookup "exp" c = None ->
    (0 <= t + 120)%Q ->
    no_usable_exp t token
| exp_not_number (c : list (string * pyval)) (e : pyval) :
    decode_claims token = Ok (PyDict c) ->
    dict_lookup "exp" c = Some e ->
    py_gt e (t + 120)%Q = Raise TypeError ->
    no_usable_exp t token.

End Parts.

(** * Properties *)

(** ** Auxiliary facts *)

Lemma Qltb_lt (a b : Q) : Qltb a b = true <-> (a < b)%Q.
Proof.
  unfold Qltb. rewrite Qlt_alt.
  destruct (a ?= b)%Q; split; intro H; congruence.
Qed.

Lemma Qltb_ge (a b : Q) : Qltb a b = false <-> (b <= a)%Q.
Proof.
  split; intro H.
  - apply Qnot_lt_le. intro Hlt. apply Qltb_lt in Hlt. congruence.
  - destruct (Qltb a b) eqn:E; [|reflexivity].
    apply Qltb_lt in E. exfalso. exact (Qlt_not_le _ _ E H).
Qed.


Lemma length_substring_0 (m : nat) (s : string) :
  String.length (substring 0 m s) = Nat.min m (String.length s).
Proof.
  revert s. induction m as [|m IH]; intros [|c s]; simpl; auto.
Qed.


Lemma length_append (s t : string) :
  String.length (s ++ t) = (String.length s + String.length t)%nat.
Proof. induction s; simpl; auto. Qed.

Lemma append_assoc (s t u : string) : (s ++ t) ++ u = s ++ (t ++ u).
Proof. induction s; simpl; congruence. Qed.

Lemma append_nil_r (s : string) : s ++ "" = s.
Proof. induction s; simpl; congruence. Qed.

(** *** [str.strip] *)














Section Properties.

Context {L : PyLib}.

(** ** The expiry check *)

(** The [try] block never raises and leaves the world as it is: it
    returns the token when [token_fresh] holds and falls through
    otherwise. *)
Lemma check_expiry_eq (token : pyval) (w : World) :
  check_expiry token w =
  (Ok (if token_fresh (now w) token then Some token else None), w).
Proof.
  unfold check_expiry, token_fresh, try_except, bind, lift, time_time, ret.
  destruct (decode_claims token) as [claims|e]; [|reflexivity].
  destruct (py_get claims "exp" (PyInt 0)) as [ex|e]; [|reflexivity].
  destruct (py_gt ex (now w + 120)%Q) as [[|]|e]; reflexivity.
Qed.

Lemma check_expiry_never_raises (token : pyval) (w : World) :
  exists r, check_expiry token w = (Ok r, w).
Proof. rewrite check_expiry_eq. eauto. Qed.

Lemma load_content (w : World) (data : string) (auth : pyval) :
  fs w AUTH_FILE = Content data ->
  json_loads data = Some auth ->
  load w = (Ok auth, log (EvOpenRead AUTH_FILE) w).
Proof.
  intros Hf Hj. unfold load, bind, open_read. rewrite Hf, Hj. reflexivity.
Qed.

(** With a credential file that holds a [dict], [get_token] returns the
    cached token when the check finds it fresh and authenticates
    otherwise. *)
Lemma get_token_cached (w : World) (data : string) (auth token : pyval) :
  fs w AUTH_FILE = Content data ->
  json_loads data = Some auth ->
  py_get auth "token" (PyStr "") = Ok token ->
  get_token w =
  if token_fresh (now w) token
  then (Ok token, log (EvOpenRead AUTH_FILE) w)
  else authenticate (log (EvOpenRead AUTH_FILE) w).
Proof.
  intros Hf Hj Hg. unfold get_token, bind at 1, path_exists. rewrite Hf.
  unfold bind at 1. rewrite (load_content w data auth Hf Hj).
  unfold bind at 1, lift at 1. rewrite Hg.
  unfold bind at 1. rewrite check_expiry_eq.
  change (now (log (EvOpenRead AUTH_FILE) w)) with (now w).
  destruct (token_fresh (now w) token); reflexivity.
Qed.

Lemma get_token_no_cache (w : World) :
  fs w AUTH_FILE = Missing -> get_token w = authenticate w.
Proof.
  intros Hf. unfold get_token, bind at 1, path_exists. rewrite Hf. reflexivity.
Qed.

Lemma get_token_unparsable (w : World) (data : string) :
  fs w AUTH_FILE = Content data ->
  json_loads data = None ->
  get_token w = (Raise ValueError, log (EvOpenRead AUTH_FILE) w).
Proof.
  intros Hf Hj. unfold get_token, bind at 1, path_exists. rewrite Hf.
  unfold bind at 1, load, bind at 1, open_read. rewrite Hf, Hj. reflexivity.
Qed.

Lemma get_token_unreadable (w : World) :
  fs w AUTH_FILE = Unreadable ->
  get_token w = (Raise OSError, log (EvOpenRead AUTH_FILE) w).
Proof.
  intros Hf. unfold get_token, bind at 1, path_exists. rewrite Hf.
  unfold bind at 1, load, bind at 1, open_read. rewrite Hf. reflexivity.
Qed.


(** ** Running the program step by step *)

Lemma bind_ok {A B} (m : M A) (k : A -> M B) (w w' : World) (a : A) :
  m w = (Ok a, w') -> bind m k w = k a w'.
Proof. unfold bind. now intros ->. Qed.

Lemma bind_raise {A B} (m : M A) (k : A -> M B) (w w' : World) (e : exn) :
  m w = (Raise e, w') -> bind m k w = (Raise e, w').
Proof. unfold bind. now intros ->. Qed.

Lemma http_reply (rq : request) (w : World) (r : response) (rest : list reply) :
  server w = Reply r :: rest ->
  http rq w = (Ok r, set_server rest (log (EvHttp rq) w)).
Proof. unfold http. simpl. now intros ->. Qed.

Lemma raise_for_status_ok (r : response) (w : World) :
  ok r = true -> raise_for_status r w = (Ok tt, w).
Proof. unfold raise_for_status. now intros ->. Qed.

Lemma raise_for_status_error (r : response) (w : World) :
  ok r = false ->
  raise_for_status r w = (Raise (HTTPError (status_code r) (text r)), w).
Proof. unfold raise_for_status. now intros ->. Qed.

Lemma resp_json_ok (r : response) (v : pyval) (w : World) :
  json_loads (text r) = Some v -> resp_json r w = (Ok v, w).
Proof. unfold resp_json. now intros ->. Qed.

Lemma lift_eq {A} (r : result A) (w : World) : lift r w = (r, w).
Proof. reflexivity. Qed.

Lemma from_private_bytes_prefix (raw : string) :
  (32 <= String.length raw)%nat ->
  from_private_bytes (substring 0 32 raw) = Ok (substring 0 32 raw).
Proof.
  intros H. unfold from_private_bytes. rewrite length_substring_0.
  rewrite Nat.min_l by assumption. reflexivity.
Qed.

Lemma from_private_bytes_short (raw : string) :
  (String.length raw < 32)%nat ->
  from_private_bytes (substring 0 32 raw) = Raise ValueError.
Proof.
  intros H. unfold from_private_bytes. rewrite length_substring_0.
  rewrite Nat.min_r by lia.
  destruct (Nat.eqb_spec (String.length raw) 32); [lia|reflexivity].
Qed.

Lemma load_keys_ok (w : World) (raw pem : string) :
  fs w PRIVATE_KEY_FILE = Content raw ->
  (32 <= String.length raw)%nat ->
  fs w PUBLIC_KEY_FILE = Content pem ->
  load_keys w =
  (Ok (substring 0 32 raw, strip pem),
   log (EvOpenRead PUBLIC_KEY_FILE) (log (EvOpenRead PRIVATE_KEY_FILE) w)).
Proof.
  intros Hpriv Hlen Hpub. unfold load_keys.
  unfold bind at 1, open_read at 1. rewrite Hpriv.
  unfold bind at 1, lift. rewrite from_private_bytes_prefix by assumption.
  unfold bind at 1, open_read. simpl fs. rewrite Hpub. reflexivity.
Qed.

(** A failed challenge: the status is an error of the client or of the
    server. *)
Lemma authenticate_challenge_error (w : World) (raw pem : string)
  (r : response) (rest : list reply) :
  fs w PRIVATE_KEY_FILE = Content raw ->
  (32 <= String.length raw)%nat ->
  fs w PUBLIC_KEY_FILE = Content pem ->
  server w = Reply r :: rest ->
  ok r = false ->
  authenticate w =
  (Raise (HTTPError (status_code r) (text r)), after_challenge w pem rest).
Proof.
  intros Hpriv Hlen Hpub Hs Hok. unfold authenticate.
  rewrite (bind_ok _ _ _ _ _ (load_keys_ok w raw pem Hpriv Hlen Hpub)).
  unfold requests_post.
  erewrite bind_ok by (apply http_reply; simpl; exact Hs).
  erewrite bind_raise by (apply raise_for_status_error; exact Hok).
  reflexivity.
Qed.

(** Both round trips succeed: the response body is written to the
    credential file, then its [token] is looked up. *)
Lemma authenticate_exchange (w : World) (raw pem : string)
  (r1 r2 : response) (rest : list reply) (challenge nonce_b64 auth : pyval)
  (nonce : string) :
  fs w PRIVATE_KEY_FILE = Content raw ->
  (32 <= String.length raw)%nat ->
  fs w PUBLIC_KEY_FILE = Content pem ->
  server w = Reply r1 :: Reply r2 :: rest ->
  ok r1 = true ->
  json_loads (text r1) = Some challenge ->
  py_getitem challenge "nonce" = Ok nonce_b64 ->
  py_b64decode nonce_b64 = Ok nonce ->
  ok r2 = true ->
  json_loads (text r2) = Some auth ->
  authenticate w =
  (_ <- save auth ;; lift (py_getitem auth "token"))
    (after_exchange w pem
       (b64encode (ed25519_sign (substring 0 32 raw) nonce)) rest).
Proof.
  intros Hpriv Hlen Hpub Hs Hok1 Hj1 Hn Hd Hok2 Hj2. unfold authenticate.
  rewrite (bind_ok _ _ _ _ _ (load_keys_ok w raw pem Hpriv Hlen Hpub)).
  unfold requests_post.
  erewrite bind_ok by (apply http_reply; simpl; exact Hs).
  erewrite bind_ok by (apply raise_for_status_ok; exact Hok1).
  erewrite bind_ok by (apply resp_json_ok; exact Hj1).
  rewrite Hn. rewrite (bind_ok _ _ _ _ _ (lift_eq (Ok _) _)).
  rewrite Hd. rewrite (bind_ok _ _ _ _ _ (lift_eq (Ok _) _)).
  erewrite bind_ok by (apply http_reply; simpl; reflexivity).
  erewrite bind_ok by (apply raise_for_status_ok; exact Hok2).
  erewrite bind_ok by (apply resp_json_ok; exact Hj2).
  reflexivity.
Qed.

Lemma save_ok (auth : pyval) (w : World) :
  fs w AUTH_FILE <> Unreadable ->
  save auth w =
  (Ok tt, set_file AUTH_FILE (Content (json_dumps auth))
            (log (EvOpenWrite AUTH_FILE) w)).
Proof.
  intros H. unfold save, open_write.
  destruct (fs w AUTH_FILE); [reflexivity|congruence|reflexivity].
Qed.

Lemma save_denied (auth : pyval) (w : World) :
  fs w AUTH_FILE = Unreadable ->
  save auth w = (Raise OSError, log (EvOpenWrite AUTH_FILE) w).
Proof. intros H. unfold save, open_write. now rewrite H. Qed.

(** A full challenge-response cycle that succeeds. *)
Lemma authenticate_cycle (w : World) (raw pem : string)
  (r1 r2 : response) (rest : list reply) (challenge nonce_b64 auth tok : pyval)
  (nonce : string) :
  fs w PRIVATE_KEY_FILE = Content raw ->
  (32 <= String.length raw)%nat ->
  fs w PUBLIC_KEY_FILE = Content pem ->
  server w = Reply r1 :: Reply r2 :: rest ->
  ok r1 = true ->
  json_loads (text r1) = Some challenge ->
  py_getitem challenge "nonce" = Ok nonce_b64 ->
  py_b64decode nonce_b64 = Ok nonce ->
  ok r2 = true ->
  json_loads (text r2) = Some auth ->
  py_getitem auth "token" = Ok tok ->
  fs w AUTH_FILE <> Unreadable ->
  fst (authenticate w) = Ok tok /\
  new_events w (snd (authenticate w))
    [EvOpenRead PRIVATE_KEY_FILE; EvOpenRead PUBLIC_KEY_FILE;
     EvHttp (challenge_request (strip pem));
     EvHttp (authenticate_request (strip pem)
               (b64encode (ed25519_sign (substring 0 32 raw) nonce)));
     EvOpenWrite AUTH_FILE] /\
  fs (snd (authenticate w)) AUTH_FILE = Content (json_dumps auth) /\
  server (snd (authenticate w)) = rest.
Proof.
  intros Hpriv Hlen Hpub Hs Hok1 Hj1 Hn Hd Hok2 Hj2 Ht Hw.
  rewrite (authenticate_exchange w raw pem r1 r2 rest challenge nonce_b64
             auth nonce) by assumption.
  erewrite bind_ok by (apply save_ok; exact Hw).
  rewrite lift_eq, Ht. unfold new_events. simpl.
  repeat rewrite <- app_assoc. simpl. auto.
Qed.

(** ** The API calls on an error status *)

(** [api_get] fails with the [HTTPError] and prints nothing. *)
Lemma api_get_error (w w1 : World) (path : string) (params token : pyval)
  (r : response) (rest : list reply) :
  get_token w = (Ok token, w1) ->
  server w1 = Reply r :: rest ->
  ok r = false ->
  api_get path params w =
  (Raise (HTTPError (status_code r) (text r)),
   set_server rest
     (log (EvHttp {| rq_method := GET; rq_url := BASE_URL ++ path;
                     rq_bearer := Some token; rq_params := params;
                     rq_json := None |}) w1)).
Proof.
  intros Hg Hs Hok. unfold api_get, requests_get.
  rewrite (bind_ok _ _ _ _ _ Hg).
  erewrite bind_ok by (apply http_reply; exact Hs).
  erewrite bind_raise by (apply raise_for_status_error; exact Hok).
  reflexivity.
Qed.

(** [api_post] prints the diagnostic line, then fails with the
    [HTTPError]. *)
Lemma api_post_error (w w1 : World) (path : string) (data token : pyval)
  (r : response) (rest : list reply) :
  get_token w = (Ok token, w1) ->
  server w1 = Reply r :: rest ->
  ok r = false ->
  api_post path data w =
  (Raise (HTTPError (status_code r) (text r)),
   log (EvStderr (error_line r))
     (set_server rest
        (log (EvHttp {| rq_method := POST; rq_url := BASE_URL ++ path;
                        rq_bearer := Some token; rq_params := PyNone;
                        rq_json := Some data |}) w1))).
Proof.
  intros Hg Hs Hok. unfold api_post, requests_post.
  rewrite (bind_ok _ _ _ _ _ Hg).
  erewrite bind_ok by (apply http_reply; exact Hs).
  rewrite Hok. erewrite bind_ok by reflexivity.
  erewrite bind_raise by (apply raise_for_status_error; exact Hok).
  reflexivity.
Qed.

(** So does [api_put]. *)
Lemma api_put_error (w w1 : World) (path : string) (data token : pyval)
  (r : response) (rest : list reply) :
  get_token w = (Ok token, w1) ->
  server w1 = Reply r :: rest ->
  ok r = false ->
  api_put path data w =
  (Raise (HTTPError (status_code r) (text r)),
   log (EvStderr (error_line r))
     (set_server rest
        (log (EvHttp {| rq_method := PUT; rq_url := BASE_URL ++ path;
                        rq_bearer := Some token; rq_params := PyNone;
                        rq_json := Some (if py_truthy data then data
                                         else PyDict []) |}) w1))).
Proof.
  intros Hg Hs Hok. unfold api_put, requests_put.
  rewrite (bind_ok _ _ _ _ _ Hg).
  erewrite bind_ok by (apply http_reply; exact Hs).
  rewrite Hok. erewrite bind_ok by reflexivity.
  erewrite bind_raise by (apply raise_for_status_error; exact Hok).
  reflexivity.
Qed.

(** ** The claims *)



(** C6, amended. When the challenge endpoint answers with a status from
    400 to 599, [authenticate] fails with an [HTTPError] that carries the
    status and the body, after that one request, and no file is written or
    modified. *)
Theorem authenticate_challenge_refused (w : World) (raw pem : string)
  (r : response) (rest : list reply) :
  fs w PRIVATE_KEY_FILE = Content raw ->
  (32 <= String.length raw)%nat ->
  fs w PUBLIC_KEY_FILE = Content pem ->
  server w = Reply r :: rest ->
  400 <= status_code r < 600 ->
  fst (authenticate w) = Raise (HTTPError (status_code r) (text r)) /\
  same_files w (snd (authenticate w)) /\
  new_events w (snd (authenticate w))
    [EvOpenRead PRIVATE_KEY_FILE; EvOpenRead PUBLIC_KEY_FILE;
     EvHttp (challenge_request (strip pem))].
Proof.
  intros Hpriv Hlen Hpub Hs Hst.
  assert (Hok : ok r = false).
  { unfold ok. destruct (Z.leb_spec 400 (status_code r)); [|lia].
    destruct (Z.ltb_spec (status_code r) 600); [reflexivity|lia]. }
  rewrite (authenticate_challenge_error w raw pem r rest) by assumption.
  unfold new_events. simpl. repeat split.
  repeat rewrite <- app_assoc. reflexivity.
Qed.

(** C2, amended. When both round trips succeed and the body of the second
    answer has no [token] to look up ([auth["token"]] raises: an object
    without the key, or a value that is not an object), [authenticate]
    fails with that exception, and by then the body has been written to the
    credential file; only a credential file that cannot be opened stays as
    it was (the failure is then the [OSError] of the write). *)
Theorem authenticate_without_token_overwrites (w : World) (raw pem : string)
  (r1 r2 : response) (rest : list reply) (challenge nonce_b64 auth : pyval)
  (nonce : string) (e : exn) :
  fs w PRIVATE_KEY_FILE = Content raw ->
  (32 <= String.length raw)%nat ->
  fs w PUBLIC_KEY_FILE = Content pem ->
  server w = Reply r1 :: Reply r2 :: rest ->
  ok r1 = true ->
  json_loads (text r1) = Some challenge ->
  py_getitem challenge "nonce" = Ok nonce_b64 ->
  py_b64decode nonce_b64 = Ok nonce ->
  ok r2 = true ->
  json_loads (text r2) = Some auth ->
  py_getitem auth "token" = Raise e ->
  match fs w AUTH_FILE with
  | Unreadable =>
      fst (authenticate w) = Raise OSError /\
      fs (snd (authenticate w)) AUTH_FILE = Unreadable
  | _ =>
      fst (authenticate w) = Raise e /\
      fs (snd (authenticate w)) AUTH_FILE = Content (json_dumps auth)
  end.
Proof.
  intros Hpriv Hlen Hpub Hs Hok1 Hj1 Hn Hd Hok2 Hj2 Ht.
  rewrite (authenticate_exchange w raw pem r1 r2 rest challenge nonce_b64
             auth nonce) by assumption.
  destruct (fs w AUTH_FILE) eqn:Hf.
  - erewrite bind_ok by (apply save_ok; simpl; rewrite Hf; discriminate).
    rewrite lift_eq, Ht. auto.
  - erewrite bind_raise by (apply save_denied; simpl; exact Hf).
    simpl. auto.
  - erewrite bind_ok by (apply save_ok; simpl; rewrite Hf; discriminate).
    rewrite lift_eq, Ht. auto.
Qed.

(** C10, amended. When the credential file holds a JSON object without a
    [token] key, [get_token] does not raise from the cache: the token is
    the empty string, its claims cannot be read (there is no second
    segment), and [get_token] authenticates, as it does without a file. *)
Theorem get_token_object_without_token (w : World) (data : string)
  (d : list (string * pyval)) :
  fs w AUTH_FILE = Content data ->
  json_loads data = Some (PyDict d) ->
  dict_lookup "token" d = None ->
  py_get (PyDict d) "token" (PyStr "") = Ok (PyStr "") /\
  decode_claims (PyStr "") = Raise IndexError /\
  get_token w = authenticate (log (EvOpenRead AUTH_FILE) w).
Proof.
  intros Hf Hj Ht.
  assert (Hg : py_get (PyDict d) "token" (PyStr "") = Ok (PyStr "")).
  { simpl. now rewrite Ht. }
  repeat split; [exact Hg|].
  rewrite (get_token_cached w data (PyDict d) (PyStr "") Hf Hj Hg).
  reflexivity.
Qed.


End Properties.

(** ** The claims at concrete worlds *)

Import Examples.



Lemma authenticate_challenge_refused_witness :
  let w := world Missing [reply_of 503 "unavailable"] in
  fst (authenticate (L := cpython) w) = Raise (HTTPError 503 "unavailable") /\
  same_files w (snd (authenticate (L := cpython) w)).
Proof.
  intros w.
  destruct (authenticate_challenge_refused (L := cpython) w
              private_key_data public_key_data
              {| status_code := 503; text := "unavailable" |} [])
    as (Hres & Hfiles & _); try reflexivity.
  - vm_compute. lia.
  - simpl. lia.
  - split; assumption.
Defined.

Lemma authenticate_without_token_overwrites_witness :
  let w := world (Content (credential stale_token)) no_token_service in
  fst (authenticate (L := cpython) w) = Raise (KeyError "token") /\
  fs (snd (authenticate (L := cpython) w)) AUTH_FILE =
  Content (CPython.json_dumps (PyDict [("status", PyStr "ok")])).
Proof.
  intros w.
  eapply (authenticate_without_token_overwrites (L := cpython) w
            private_key_data public_key_data);
    try (vm_compute; reflexivity).
  vm_compute. lia.
Defined.

Lemma get_token_object_without_token_witness :
  let w := world (Content "{}") service in
  get_token (L := cpython) w =
  authenticate (L := cpython) (log (EvOpenRead AUTH_FILE) w).
Proof.
  intros w.
  eapply (get_token_object_without_token (L := cpython) w "{}" []);
    reflexivity.
Defined.


(** C2 as stated fails: with a cached credential in place and an answer
    [{"status": "ok"}] to the second request, [authenticate] fails and the
    credential file holds that answer afterwards. *)
Lemma authenticate_without_token_counterexample :
  ~ AsStated.missing_token_leaves_file /\
  (let w := world (Content (credential stale_token)) no_token_service in
   fst (authenticate (L := cpython) w) = Raise (KeyError "token") /\
   fs w AUTH_FILE = Content (credential stale_token) /\
   fs (snd (authenticate (L := cpython) w)) AUTH_FILE =
     Content (CPython.json_dumps (PyDict [("status", PyStr "ok")]))).
Proof.
  split; [|vm_compute; repeat split].
  intros H.
  edestruct (H cpython (world (Content (credential stale_token))
                          no_token_service)
               private_key_data public_key_data) as [_ Hfile];
    try (vm_compute; reflexivity).
  - vm_compute. lia.
  - vm_compute in Hfile. discriminate.
Qed.


(** C6 as stated fails: a status 300 with a nonce in its body is not an
    error for [raise_for_status]; the exchange goes on, succeeds, and the
    credential file is written. *)
Lemma authenticate_challenge_refused_counterexample :
  ~ AsStated.non_2xx_challenge_fails /\
  (let w := world Missing [reply_of 300 nonce_body; reply_of 200 token_body] in
   fst (authenticate (L := cpython) w) = Ok (PyStr fresh_token) /\
   fs w AUTH_FILE = Missing /\
   fs (snd (authenticate (L := cpython) w)) AUTH_FILE =
     Content (CPython.json_dumps (PyDict [("token", PyStr fresh_token)]))).
Proof.
  split; [|vm_compute; repeat split].
  intros H.
  edestruct (H cpython (world Missing
                          [reply_of 300 nonce_body; reply_of 200 token_body])
               private_key_data public_key_data) as [Hres _];
    try (vm_compute; reflexivity).
  - vm_compute. lia.
  - vm_compute in Hres. discriminate.
Qed.

(** C10 as stated fails: [[]] is valid JSON without a [token] key, and
    [auth.get] raises [AttributeError] on it, where [authenticate] would
    have returned a token. *)
Lemma get_token_without_token_key_counterexample :
  ~ AsStated.tokenless_json_reauthenticates /\
  (let w := world (Content "[]") service in
   CPython.json_loads "[]" = Some (PyList []) /\
   fst (get_token (L := cpython) w) = Raise AttributeError /\
   fst (authenticate (L := cpython) (log (EvOpenRead AUTH_FILE) w))
     = Ok (PyStr fresh_token)).
Proof.
  split; [|vm_compute; repeat split].
  intros H.
  specialize (H cpython (world (Content "[]") service) "[]" (PyList [])
                eq_refl eq_refl).
  assert (Hd : forall d, PyList [] = PyDict d -> dict_lookup "token" d = None)
    by (intros d Hd; discriminate).
  apply H in Hd. apply (f_equal fst) in Hd. vm_compute in Hd. discriminate.
Qed.

(** C1: the code at a malformed and at an unreadable credential file.
    [get_token] raises from the cache read ([json.load], [open]) and does
    not go on to authenticate: no key is read, no request is sent. *)
Theorem get_token_raises_on_unusable_cache :
  (let w := world (Content "{") service in
   CPython.json_loads "{" = None /\
   fst (get_token (L := cpython) w) = Raise ValueError /\
   events (snd (get_token (L := cpython) w)) = [EvOpenRead AUTH_FILE]) /\
  (let w := world Unreadable service in
   fst (get_token (L := cpython) w) = Raise OSError /\
   events (snd (get_token (L := cpython) w)) = [EvOpenRead AUTH_FILE]).
Proof. vm_compute. repeat split. Qed.

(** C3: the code at a GET that is answered 403. [api_get] fails with the
    [HTTPError] of status and body, and nothing is printed to the standard
    error stream; [api_post] and [api_put] in the same world print the
    diagnostic line first. *)
Theorem api_get_prints_no_diagnostic :
  let w := world (Content (credential fresh_token)) forbidden in
  let shown (r : result pyval * World) := filter is_stderr (events (snd r)) in
  fst (api_get (L := cpython) "/api/channels" PyNone w) =
    Raise (HTTPError 403 forbidden_body) /\
  shown (api_get (L := cpython) "/api/channels" PyNone w) = [] /\
  shown (api_post (L := cpython) "/api/channels" (PyDict []) w) =
    [EvStderr ("ERROR 403: " ++ forbidden_body)] /\
  shown (api_put (L := cpython) "/api/channels" PyNone w) =
    [EvStderr ("ERROR 403: " ++ forbidden_body)].
Proof. vm_compute. repeat split. Qed.

(** C7: the code at a token whose payload, in base64url, has the character
    [-]. As base64url the payload is the JSON of claims that expire in the
    year 2286; [decode_claims] uses the standard alphabet, drops the
    character, fails, and [get_token] authenticates again. *)
Theorem get_token_rejects_urlsafe_payload :
  let w := world (Content (credential urlsafe_token)) service in
  CPython.urlsafe_b64decode (urlsafe_payload ++ "====") =
    Some urlsafe_claims /\
  CPython.json_loads_bytes urlsafe_claims =
    Some (PyDict [("exp", PyInt 9999999999); ("sub", PyStr "a>b")]) /\
  (now w + 120 < inject_Z 9999999999)%Q /\
  decode_claims (L := cpython) (PyStr urlsafe_token) = Raise ValueError /\
  get_token (L := cpython) w =
    authenticate (L := cpython) (log (EvOpenRead AUTH_FILE) w) /\
  List.length (filter is_http (events (snd (get_token (L := cpython) w))))
    = 2%nat.
Proof.
  intros w. repeat split; vm_compute; reflexivity.
Qed.

(** ** Writing and reading JSON *)

Module JsonRoundTrip.

Import CPython.

Lemma skip_ws_spaces (n : nat) (s : string) :
  skip_ws (str_repeat " " n ++ s) = skip_ws s.
Proof. induction n; simpl; auto. Qed.

Lemma skip_ws_newline_indent (lvl : nat) (s : string) :
  skip_ws (newline_indent lvl ++ s) = skip_ws s.
Proof. unfold newline_indent. simpl. apply skip_ws_spaces. Qed.

Lemma skip_ws_value_head (s : string) :
  value_head s = true -> skip_ws s = s.
Proof.
  destruct s as [|c s]; simpl; [discriminate|].
  destruct (is_ws c); [discriminate|reflexivity].
Qed.

(** *** Strings *)

Lemma scan_string_escape_char (c : ascii) (tail : string) :
  scan_string (escape_char c ++ tail) = cons_char c (scan_string tail).
Proof.
  destruct c as [[|] [|] [|] [|] [|] [|] [|] [|]]; reflexivity.
Qed.

Lemma scan_string_escape (s rest : string) :
  scan_string (escape s ++ String dquote rest) = Some (s, rest).
Proof.
  induction s as [|c s IH]; [reflexivity|].
  simpl escape. rewrite append_assoc, scan_string_escape_char, IH.
  reflexivity.
Qed.

Lemma scan_string_quote (s rest : string) :
  exists t, quote s ++ rest = String dquote t /\ scan_string t = Some (s, rest).
Proof.
  exists (escape s ++ String dquote rest). split.
  - unfold quote. simpl. now rewrite append_assoc.
  - apply scan_string_escape.
Qed.

(** *** Numbers *)

Lemma scan_digits_stop (rest : string) :
  num_stop rest = true -> scan_digits rest = (Nil, rest).
Proof.
  destruct rest as [|c rest]; simpl; [reflexivity|].
  destruct (digit_of c); [discriminate|reflexivity].
Qed.

Lemma scan_digits_uint (d : uint) (rest : string) :
  scan_digits rest = (Nil, rest) ->
  scan_digits (NilEmpty.string_of_uint d ++ rest) = (d, rest).
Proof.
  intros Hrest. induction d; simpl; rewrite ?IHd; auto.
Qed.

Lemma scan_frac_stop (rest : string) :
  num_stop rest = true -> scan_frac rest = (None, rest).
Proof.
  destruct rest as [|c rest]; simpl; [reflexivity|].
  destruct (digit_of c); [discriminate|].
  destruct (Ascii.eqb c "."); [discriminate|reflexivity].
Qed.

Lemma scan_exp_stop (rest : string) :
  num_stop rest = true -> scan_exp rest = (None, rest).
Proof.
  destruct rest as [|c rest]; simpl; [reflexivity|].
  destruct (digit_of c); [discriminate|].
  destruct (Ascii.eqb c "."); [discriminate|].
  destruct (Ascii.eqb c "e"); [discriminate|].
  destruct (Ascii.eqb c "E"); [discriminate|reflexivity].
Qed.

Lemma pos_to_uint_head (p : positive) : nonzero_head (Pos.to_uint p) = true.
Proof.
  pose proof (Unsigned.to_of (Pos.to_uint p)) as H.
  rewrite Unsigned.of_to in H. simpl in H.
  assert (Hnz : nzhead (Pos.to_uint p) <> Nil).
  { intros Hnil. apply unorm_0 in Hnil. rewrite <- H in Hnil.
    exact (Unsigned.to_uint_nonzero p Hnil). }
  rewrite (unorm_nzhead _ Hnz) in H.
  pose proof (nzhead_nonzero (Pos.to_uint p)) as Hd0.
  rewrite <- H in Hd0, Hnz.
  destruct (Pos.to_uint p); try reflexivity.
  - congruence.
  - exfalso. exact (Hd0 _ eq_refl).
Qed.

Lemma of_uint_pos (p : positive) : Z.of_uint (Pos.to_uint p) = Z.pos p.
Proof. unfold Z.of_uint. now rewrite Unsigned.of_to. Qed.

Lemma scan_int_part_uint (d : uint) (rest : string) :
  nonzero_head d = true ->
  scan_digits rest = (Nil, rest) ->
  scan_int_part (NilEmpty.string_of_uint d ++ rest) = Some (d, rest).
Proof.
  intros Hd Hrest.
  destruct d; try discriminate; simpl;
    rewrite (scan_digits_uint _ _ Hrest); reflexivity.
Qed.

Lemma Z_to_string_text (z : Z) : int_text z (Z_to_string z).
Proof.
  destruct z as [|p|p]; unfold Z_to_string; simpl.
  - now apply int_text_zero.
  - apply int_text_pos; [apply pos_to_uint_head|apply of_uint_pos].
  - apply int_text_neg; [apply pos_to_uint_head|].
    now rewrite of_uint_pos.
Qed.

Lemma nonzero_head_text (d : uint) (rest : string) :
  nonzero_head d = true ->
  exists c t, NilEmpty.string_of_uint d ++ rest = String c t /\
              Ascii.eqb c "-" = false /\ Ascii.eqb c "0" = false /\
              digit_of c <> None.
Proof.
  destruct d; try discriminate; intros _; simpl;
    eexists; eexists; repeat split; discriminate.
Qed.

(** Sign and integer part, as [scan_number] reads them. *)
Lemma scan_sign_int (z : Z) (rest : string) :
  scan_digits rest = (Nil, rest) ->
  exists neg s1 d,
    match Z_to_string z ++ rest with
    | String c s' =>
        if Ascii.eqb c "-" then (true, s') else (false, Z_to_string z ++ rest)
    | EmptyString => (false, Z_to_string z ++ rest)
    end = (neg, s1) /\
    scan_int_part s1 = Some (d, rest) /\
    signed neg (Z.of_uint d) = z.
Proof.
  intros Hrest. destruct (Z_to_string_text z) as [Hz|d Hd Hz|d Hd Hz].
  - exists false, ("0" ++ rest), (D0 Nil). subst z. repeat split.
  - destruct (nonzero_head_text d rest Hd) as (c & t & Heq & Hm & _).
    exists false, (NilEmpty.string_of_uint d ++ rest), d.
    rewrite Heq, Hm, <- Heq. repeat split; [|exact Hz].
    now apply scan_int_part_uint.
  - exists true, (NilEmpty.string_of_uint d ++ rest), d.
    simpl. repeat split; [|exact Hz].
    now apply scan_int_part_uint.
Qed.

Lemma scan_number_int (z : Z) (rest : string) :
  num_stop rest = true ->
  scan_number (Z_to_string z ++ rest) = Some (PyInt z, rest).
Proof.
  intros Hstop.
  destruct (scan_sign_int z rest (scan_digits_stop _ Hstop))
    as (neg & s1 & d & Hsign & Hint & Hz).
  unfold scan_number. rewrite Hsign, Hint.
  rewrite (scan_frac_stop _ Hstop), (scan_exp_stop _ Hstop). now rewrite Hz.
Qed.

Lemma scan_exp_Z (e : Z) (rest : string) :
  scan_digits rest = (Nil, rest) ->
  scan_exp (String "e" (Z_to_string e ++ rest)) = (Some e, rest).
Proof.
  intros Hrest. destruct (Z_to_string_text e) as [He|d Hd He|d Hd He].
  - subst e. simpl. rewrite Hrest. reflexivity.
  - destruct (nonzero_head_text d rest Hd) as (c & t & Heq & Hm & _ & Hdig).
    assert (Hp : Ascii.eqb c "+" = false).
    { destruct (Ascii.eqb_spec c "+"); [subst c; now elim Hdig|reflexivity]. }
    unfold scan_exp. simpl Ascii.eqb. simpl orb. cbv iota.
    rewrite Heq, Hm, Hp, <- Heq, (scan_digits_uint _ _ Hrest).
    destruct d; try discriminate; now rewrite He.
  - unfold scan_exp. simpl. rewrite (scan_digits_uint _ _ Hrest).
    destruct d; try discriminate; now rewrite He.
Qed.

Lemma scan_number_float (m e : Z) (rest : string) :
  num_stop rest = true ->
  scan_number (float_repr (FDec m e) ++ rest) = Some (PyFloat (FDec m e), rest).
Proof.
  intros Hstop.
  assert (Heq : float_repr (FDec m e) ++ rest
                = Z_to_string m ++ String "e" (Z_to_string e ++ rest)).
  { unfold float_repr. now rewrite append_assoc. }
  rewrite Heq.
  destruct (scan_sign_int m (String "e" (Z_to_string e ++ rest)) eq_refl)
    as (neg & s1 & d & Hsign & Hint & Hz).
  unfold scan_number. rewrite Hsign, Hint.
  change (scan_frac (String "e" (Z_to_string e ++ rest)))
    with (@None uint, String "e" (Z_to_string e ++ rest)).
  cbv beta iota.
  rewrite (scan_exp_Z e rest (scan_digits_stop _ Hstop)). now rewrite Hz.
Qed.

Lemma parse_value_number (fuel : nat) (s : string) :
  number_head s = true -> parse_value (S fuel) s = scan_number s.
Proof.
  intros H. destruct s as [|c s]; [discriminate|].
  destruct c as [[|] [|] [|] [|] [|] [|] [|] [|]];
    try (cbv in H; discriminate H); try reflexivity.
  destruct s as [|c s]; [discriminate|].
  destruct c as [[|] [|] [|] [|] [|] [|] [|] [|]];
    try (cbv in H; discriminate H); reflexivity.
Qed.

Lemma number_head_value_head (s : string) :
  number_head s = true -> value_head s = true.
Proof.
  intros H. destruct s as [|c s]; [discriminate|].
  destruct c as [[|] [|] [|] [|] [|] [|] [|] [|]];
    try reflexivity; cbv in H; discriminate H.
Qed.

Lemma number_head_int (z : Z) (rest : string) :
  number_head (Z_to_string z ++ rest) = true.
Proof.
  destruct (Z_to_string_text z) as [Hz|d Hd Hz|d Hd Hz].
  - reflexivity.
  - destruct (nonzero_head_text d rest Hd) as (c & t & Heq & Hm & _ & Hdig).
    rewrite Heq. simpl. rewrite Hm. now destruct (digit_of c).
  - destruct (nonzero_head_text d rest Hd) as (c & t & Heq & _ & _ & Hdig).
    simpl. rewrite Heq. now destruct (digit_of c).
Qed.

Lemma float_repr_dec (m e : Z) (rest : string) :
  float_repr (FDec m e) ++ rest
  = Z_to_string m ++ String "e" (Z_to_string e ++ rest).
Proof. unfold float_repr. now rewrite append_assoc. Qed.

(** *** The shape of what [dump] writes *)

Lemma dump_list_cons (lvl : nat) (x : pyval) (xs : list pyval) :
  dump lvl (PyList (x :: xs)) =
  String "[" (newline_indent (S lvl) ++ dump (S lvl) x
              ++ dump_items (S lvl) xs ++ newline_indent lvl ++ "]").
Proof.
  cbn [dump]. change ("[" ++ ?s) with (String "[" s).
  do 3 f_equal. f_equal. induction xs as [|y ys IH]; [reflexivity|].
  cbn [dump_items]. now rewrite <- IH.
Qed.

Lemma dump_dict_cons (lvl : nat) (k : string) (x : pyval)
  (xs : list (string * pyval)) :
  dump lvl (PyDict ((k, x) :: xs)) =
  String "{" (newline_indent (S lvl) ++ quote k ++ ": " ++ dump (S lvl) x
              ++ dump_members (S lvl) xs ++ newline_indent lvl ++ "}").
Proof.
  cbn [dump]. change ("{" ++ ?s) with (String "{" s).
  do 5 f_equal. f_equal. induction xs as [|[k' y] ys IH]; [reflexivity|].
  cbn [dump_members]. now rewrite <- IH.
Qed.

Lemma dump_value_head (lvl : nat) (v : pyval) (rest : string) :
  value_head (dump lvl v ++ rest) = true.
Proof.
  destruct v as [|[|]|z|[m e| | |]|s|[|x xs]|[|[k x] xs]];
    try reflexivity.
  - apply number_head_value_head, number_head_int.
  - change (dump lvl (PyFloat (FDec m e))) with (float_repr (FDec m e)).
    rewrite float_repr_dec.
    apply number_head_value_head, number_head_int.
Qed.

Lemma dump_length_pos (lvl : nat) (v : pyval) :
  (1 <= String.length (dump lvl v))%nat.
Proof.
  pose proof (dump_value_head lvl v "") as H. rewrite append_nil_r in H.
  destruct (dump lvl v); [discriminate|simpl; lia].
Qed.

Lemma well_formed_list (x : pyval) (xs : list pyval) :
  well_formed (PyList (x :: xs)) = well_formed x && well_formed (PyList xs).
Proof. reflexivity. Qed.

Lemma well_formed_dict (k : string) (x : pyval) (xs : list (string * pyval)) :
  well_formed (PyDict ((k, x) :: xs)) = true ->
  distinct_keys ((k, x) :: xs) = true /\
  well_formed x = true /\ well_formed (PyDict xs) = true.
Proof.
  cbn [well_formed]. intros H.
  apply andb_true_iff in H as [Hk H]. apply andb_true_iff in H as [Hx Hxs].
  repeat split; try assumption.
  cbn [distinct_keys] in Hk. apply andb_true_iff in Hk as [_ Hk].
  now rewrite Hk.
Qed.

(** *** Dictionaries *)

Lemma fresh_key_app (k : string) (d d' : list (string * pyval)) :
  fresh_key k (d ++ d') = fresh_key k d && fresh_key k d'.
Proof.
  induction d as [|[k' v] d IH]; simpl; [reflexivity|].
  now rewrite IH, andb_assoc.
Qed.

Lemma dict_set_distinct (k : string) (x : pyval)
  (acc xs : list (string * pyval)) :
  distinct_keys (acc ++ (k, x) :: xs) = true ->
  dict_set k x acc = (acc ++ [(k, x)])%list.
Proof.
  induction acc as [|[k' v] acc IH]; simpl; [reflexivity|].
  intros H. apply andb_true_iff in H as [Hk H].
  rewrite fresh_key_app in Hk. apply andb_true_iff in Hk as [_ Hk].
  simpl in Hk. apply andb_true_iff in Hk as [Hk _].
  rewrite String.eqb_sym. apply negb_true_iff in Hk. rewrite Hk.
  now rewrite IH.
Qed.

(** *** Values *)

Lemma parse_value_list (fuel lvl : nat) (s : string) :
  value_head s = true ->
  parse_value (S fuel) (String "[" (newline_indent lvl ++ s))
  = parse_elems fuel [] s.
Proof.
  intros H. cbn [parse_value]. cbv beta iota.
  change (Ascii.eqb "[" dquote) with false.
  change (Ascii.eqb "[" "[") with true. cbv iota.
  rewrite skip_ws_newline_indent, (skip_ws_value_head _ H).
  destruct s as [|c s]; [discriminate|].
  unfold value_head in H.
  destruct (Ascii.eqb c "]"); [|reflexivity].
  rewrite andb_false_r in H. discriminate.
Qed.

Lemma parse_value_dict (fuel lvl : nat) (s : string) :
  parse_value (S fuel) (String "{" (newline_indent lvl ++ String dquote s))
  = parse_members fuel [] (String dquote s).
Proof.
  cbn [parse_value]. cbv beta iota.
  change (Ascii.eqb "{" dquote) with false.
  change (Ascii.eqb "{" "[") with false.
  change (Ascii.eqb "{" "{") with true. cbv iota.
  rewrite skip_ws_newline_indent. reflexivity.
Qed.

Lemma parse_value_string (fuel : nat) (s : string) :
  parse_value (S fuel) (String dquote s) =
  match scan_string s with
  | Some (str, r) => Some (PyStr str, r)
  | None => None
  end.
Proof. reflexivity. Qed.

Lemma parse_elems_more (fuel : nat) (acc : list pyval) (s t : string)
  (v : pyval) :
  parse_value fuel s = Some (v, String "," t) ->
  parse_elems (S fuel) acc s = parse_elems fuel (acc ++ [v]) (skip_ws t).
Proof. intros H. cbn [parse_elems]. now rewrite H. Qed.

Lemma parse_elems_last (fuel : nat) (acc : list pyval) (s rest : string)
  (v : pyval) (lvl : nat) :
  parse_value fuel s = Some (v, newline_indent lvl ++ String "]" rest) ->
  parse_elems (S fuel) acc s = Some (PyList (acc ++ [v]), rest).
Proof.
  intros H. cbn [parse_elems]. rewrite H, skip_ws_newline_indent.
  reflexivity.
Qed.

Lemma parse_members_key (fuel : nat) (acc : list (string * pyval))
  (k s : string) :
  parse_members (S fuel) acc (quote k ++ String ":" (String " " s)) =
  match parse_value fuel (skip_ws s) with
  | None => None
  | Some (v, s4) =>
      match skip_ws s4 with
      | EmptyString => None
      | String c' s5 =>
          if Ascii.eqb c' "}"
          then Some (PyDict (dict_set k v acc), s5)
          else if Ascii.eqb c' ","
          then parse_members fuel (dict_set k v acc) (skip_ws s5)
          else None
      end
  end.
Proof.
  destruct (scan_string_quote k (String ":" (String " " s)))
    as (t & Heq & Hscan).
  rewrite Heq. cbn [parse_members]. cbv beta iota.
  change (Ascii.eqb dquote dquote) with true. cbv iota. rewrite Hscan.
  reflexivity.
Qed.

Lemma parse_elems_items (xs : list pyval) :
  Forall reads_back xs ->
  forall (x : pyval) (acc : list pyval) (lvl : nat) (rest : string)
         (fuel : nat),
    reads_back x ->
    well_formed (PyList (x :: xs)) = true ->
    (1 + String.length (dump (S lvl) x)
     + String.length (dump_items (S lvl) xs) <= fuel)%nat ->
    parse_elems fuel acc
      (dump (S lvl) x ++ dump_items (S lvl) xs
       ++ newline_indent lvl ++ String "]" rest)
    = Some (PyList (acc ++ x :: xs), rest).
Proof.
  induction 1 as [|y ys Hy Hys IH];
    intros x acc lvl rest fuel Hx Hwf Hfuel;
    rewrite well_formed_list in Hwf; apply andb_true_iff in Hwf as [Hwx Hwxs];
    (destruct fuel as [|fuel]; [simpl in Hfuel; lia|]).
  - cbn [dump_items append].
    apply (parse_elems_last _ _ _ _ _ lvl).
    apply Hx; [assumption|simpl in Hfuel; lia|reflexivity].
  - cbn [dump_items] in *. rewrite !append_assoc. cbn [append].
    rewrite !length_append in Hfuel. cbn [String.length append] in Hfuel.
    erewrite parse_elems_more
      by (apply Hx; [assumption|lia|reflexivity]).
    rewrite skip_ws_newline_indent.
    rewrite (skip_ws_value_head _ (dump_value_head _ _ _)).
    rewrite (IH y (acc ++ [x])%list lvl rest fuel Hy Hwxs) by lia.
    now rewrite <- app_assoc.
Qed.

Lemma parse_members_dump (xs : list (string * pyval)) :
  Forall (fun kv : string * pyval => reads_back (snd kv)) xs ->
  forall (k : string) (x : pyval) (acc : list (string * pyval)) (lvl : nat)
         (rest : string) (fuel : nat),
    reads_back x ->
    well_formed x = true ->
    well_formed (PyDict xs) = true ->
    distinct_keys (acc ++ (k, x) :: xs) = true ->
    (1 + String.length (dump (S lvl) x)
     + String.length (dump_members (S lvl) xs) <= fuel)%nat ->
    parse_members fuel acc
      (quote k ++ ": " ++ dump (S lvl) x ++ dump_members (S lvl) xs
       ++ newline_indent lvl ++ String "}" rest)
    = Some (PyDict (acc ++ (k, x) :: xs), rest).
Proof.
  induction 1 as [|[k' y] ys Hy Hys IH];
    intros k x acc lvl rest fuel Hx Hwx Hwxs Hkeys Hfuel;
    (destruct fuel as [|fuel]; [simpl in Hfuel; lia|]);
    change (": " ++ ?s) with (String ":" (String " " s));
    rewrite parse_members_key;
    rewrite (skip_ws_value_head _ (dump_value_head _ _ _)).
  - cbn [dump_members append].
    rewrite (Hx (S lvl) _ fuel Hwx) by (simpl in Hfuel; lia || reflexivity).
    rewrite (dict_set_distinct k x acc _ Hkeys).
    rewrite skip_ws_newline_indent. reflexivity.
  - cbn [dump_members] in *. rewrite !append_assoc. cbn [append].
    rewrite !length_append in Hfuel. cbn [String.length append] in Hfuel.
    apply well_formed_dict in Hwxs as (_ & Hwy & Hwys).
    rewrite (Hx (S lvl) _ fuel Hwx) by (lia || reflexivity).
    rewrite (dict_set_distinct k x acc _ Hkeys).
    change (skip_ws (String "," ?t)) with (String "," t). cbv iota.
    change (Ascii.eqb "," "}") with false.
    change (Ascii.eqb "," ",") with true. cbv iota.
    rewrite skip_ws_newline_indent.
    assert (Hq : forall t, skip_ws (quote k' ++ t) = quote k' ++ t)
      by (intros t; reflexivity).
    rewrite Hq.
    change (String ":" (String " " ?s)) with (": " ++ s).
    rewrite (IH k' y (acc ++ [(k, x)])%list lvl rest fuel Hy Hwy Hwys).
    + now rewrite <- app_assoc.
    + now rewrite <- app_assoc.
    + lia.
Qed.

(** [json.loads] reads back what [json.dump] wrote. *)
Lemma dump_reads_back (v : pyval) : reads_back v.
Proof.
  induction v as [|b|z|f|s|l IH|d IH] using pyval_induction;
    intros lvl rest fuel Hwf Hfuel Hstop;
    (destruct fuel as [|fuel];
     [match type of Hfuel with
      | (String.length (dump _ ?v) <= _)%nat =>
          pose proof (dump_length_pos lvl v)
      end; lia|]).
  - reflexivity.
  - destruct b; reflexivity.
  - rewrite parse_value_number by apply number_head_int.
    now apply scan_number_int.
  - destruct f as [m e| | |]; try reflexivity.
    change (dump lvl (PyFloat (FDec m e))) with (float_repr (FDec m e)).
    rewrite parse_value_number
      by (rewrite float_repr_dec; apply number_head_int).
    now apply scan_number_float.
  - destruct (scan_string_quote s rest) as (t & Heq & Hscan).
    change (dump lvl (PyStr s)) with (quote s).
    now rewrite Heq, parse_value_string, Hscan.
  - destruct l as [|x xs]; [reflexivity|].
    rewrite dump_list_cons in *. inversion IH as [|? ? Hx Hxs]; subst.
    cbn [append]. rewrite !append_assoc.
    rewrite parse_value_list by apply dump_value_head.
    cbn [String.length] in Hfuel. rewrite !length_append in Hfuel.
    unfold newline_indent in Hfuel. cbn [String.length] in Hfuel.
    change ("]" ++ rest) with (String "]" rest).
    rewrite (parse_elems_items xs Hxs x [] lvl rest fuel Hx Hwf) by lia.
    reflexivity.
  - destruct d as [|[k x] xs]; [reflexivity|].
    rewrite dump_dict_cons in *. inversion IH as [|? ? Hx Hxs]; subst.
    apply well_formed_dict in Hwf as (Hkeys & Hwx & Hwxs).
    cbn [snd] in Hx.
    change (String "{" ?s ++ rest) with (String "{" (s ++ rest)).
    rewrite !append_assoc.
    assert (Hq : forall u,
               quote k ++ u = String dquote (escape k ++ String dquote u)).
    { intros u. unfold quote. cbn [append]. now rewrite append_assoc. }
    rewrite Hq, parse_value_dict, <- Hq.
    cbn [String.length] in Hfuel. rewrite !length_append in Hfuel.
    unfold newline_indent in Hfuel. cbn [String.length] in Hfuel.
    change ("}" ++ rest) with (String "}" rest).
    rewrite (parse_members_dump xs Hxs k x [] lvl rest fuel Hx Hwx Hwxs Hkeys)
      by lia.
    reflexivity.
Qed.

Theorem json_loads_dumps (v : pyval) :
  well_formed v = true -> json_loads (json_dumps v) = Some v.
Proof.
  intros Hwf. unfold json_loads, json_dumps.
  pose proof (dump_value_head 0%nat v "") as Hhead.
  rewrite append_nil_r in Hhead. rewrite (skip_ws_value_head _ Hhead).
  rewrite <- (append_nil_r (dump 0 v)) at 2.
  rewrite (dump_reads_back v 0%nat "" _ Hwf) by (lia || reflexivity).
  reflexivity.
Qed.

(** *** What [json.loads] returns is an object of Python *)

Lemma well_formed_snoc (acc : list pyval) (v : pyval) :
  well_formed (PyList acc) = true -> well_formed v = true ->
  well_formed (PyList (acc ++ [v])) = true.
Proof.
  intros Hacc Hv. induction acc as [|a acc IH].
  - simpl. now rewrite Hv.
  - change ((a :: acc) ++ [v])%list with (a :: (acc ++ [v]))%list.
    rewrite well_formed_list in *.
    apply andb_true_iff in Hacc as [Ha Hacc]. rewrite Ha. auto.
Qed.

Lemma fresh_key_dict_set (k k' : string) (v : pyval)
  (d : list (string * pyval)) :
  fresh_key k' (dict_set k v d) = fresh_key k' d && negb (String.eqb k' k).
Proof.
  induction d as [|[a x] d IH]; simpl.
  - now rewrite andb_true_r.
  - destruct (String.eqb_spec k a) as [->|Hne]; simpl.
    + destruct (String.eqb k' a); simpl; [reflexivity|].
      now rewrite andb_true_r.
    + now rewrite IH, andb_assoc.
Qed.

Lemma distinct_keys_dict_set (k : string) (v : pyval)
  (d : list (string * pyval)) :
  distinct_keys d = true -> distinct_keys (dict_set k v d) = true.
Proof.
  induction d as [|[a x] d IH]; simpl; [reflexivity|].
  intros H. apply andb_true_iff in H as [Ha Hd].
  destruct (String.eqb_spec k a) as [->|Hne]; simpl.
  - now rewrite Ha, Hd.
  - rewrite fresh_key_dict_set, Ha, (IH Hd). simpl.
    destruct (String.eqb_spec a k) as [->|_]; [now elim Hne|reflexivity].
Qed.

Lemma well_formed_dict_iff (d : list (string * pyval)) :
  well_formed (PyDict d) = true <->
  distinct_keys d = true /\
  Forall (fun kv : string * pyval => well_formed (snd kv) = true) d.
Proof.
  induction d as [|[k x] d IH].
  - simpl. split; auto.
  - split.
    + intros H. apply well_formed_dict in H as (Hk & Hx & Hd).
      split; [assumption|]. constructor; [assumption|]. now apply IH.
    + intros [Hk H]. inversion H as [|? ? Hx Hd]; subst.
      cbn [well_formed]. rewrite Hk. cbn [snd] in Hx. rewrite Hx. simpl.
      assert (Hk' : distinct_keys d = true).
      { simpl in Hk. now apply andb_true_iff in Hk as [_ Hk]. }
      destruct IH as [_ IH]. specialize (IH (conj Hk' Hd)).
      cbn [well_formed] in IH. now apply andb_true_iff in IH as [_ IH].
Qed.

Lemma well_formed_dict_set (k : string) (v : pyval)
  (d : list (string * pyval)) :
  well_formed (PyDict d) = true -> well_formed v = true ->
  well_formed (PyDict (dict_set k v d)) = true.
Proof.
  rewrite !well_formed_dict_iff. intros [Hk Hd] Hv. split.
  - now apply distinct_keys_dict_set.
  - clear Hk. induction d as [|[a x] d IH]; simpl.
    + constructor; [assumption|constructor].
    + inversion Hd as [|? ? Hx Hd']; subst.
      destruct (String.eqb k a); constructor; auto.
Qed.

Lemma scan_atom_well_formed (s r : string) (v : pyval) :
  scan_atom s = Some (v, r) -> well_formed v = true.
Proof.
  unfold scan_atom, scan_number.
  repeat match goal with
         | |- context [match ?x with _ => _ end] => destruct x
         end;
    intros H; inversion H; reflexivity.
Qed.

Lemma parse_well_formed (fuel : nat) :
  (forall s v r, parse_value fuel s = Some (v, r) -> well_formed v = true) /\
  (forall acc s v r,
     well_formed (PyList acc) = true ->
     parse_elems fuel acc s = Some (v, r) -> well_formed v = true) /\
  (forall acc s v r,
     well_formed (PyDict acc) = true ->
     parse_members fuel acc s = Some (v, r) -> well_formed v = true).
Proof.
  induction fuel as [|fuel (IHv & IHe & IHm)];
    [repeat split; intros; discriminate|].
  repeat split.
  - intros s v r. cbn [parse_value]. destruct s as [|c s]; [discriminate|].
    destruct (Ascii.eqb c dquote).
    { destruct (scan_string s) as [[str r']|]; intros H; inversion H.
      reflexivity. }
    destruct (Ascii.eqb c "[").
    { destruct (skip_ws s) as [|c1 r1]; [discriminate|].
      destruct (Ascii.eqb c1 "]").
      - intros H; inversion H; reflexivity.
      - now apply IHe. }
    destruct (Ascii.eqb c "{").
    { destruct (skip_ws s) as [|c1 r1]; [discriminate|].
      destruct (Ascii.eqb c1 "}").
      - intros H; inversion H; reflexivity.
      - now apply IHm. }
    apply scan_atom_well_formed.
  - intros acc s v r Hacc. cbn [parse_elems].
    destruct (parse_value fuel s) as [[x r']|] eqn:Hx; [|discriminate].
    apply IHv in Hx.
    destruct (skip_ws r') as [|c r1]; [discriminate|].
    destruct (Ascii.eqb c "]").
    { intros H; inversion H. now apply well_formed_snoc. }
    destruct (Ascii.eqb c ","); [|discriminate].
    apply IHe. now apply well_formed_snoc.
  - intros acc s v r Hacc. cbn [parse_members].
    destruct s as [|q s1]; [discriminate|].
    destruct (Ascii.eqb q dquote); [|discriminate].
    destruct (scan_string s1) as [[key s2]|]; [|discriminate].
    destruct (skip_ws s2) as [|c s3]; [discriminate|].
    destruct (Ascii.eqb c ":"); [|discriminate].
    destruct (parse_value fuel (skip_ws s3)) as [[x s4]|] eqn:Hx;
      [|discriminate].
    apply IHv in Hx.
    destruct (skip_ws s4) as [|c' s5]; [discriminate|].
    destruct (Ascii.eqb c' "}").
    { intros H; inversion H. now apply well_formed_dict_set. }
    destruct (Ascii.eqb c' ","); [|discriminate].
    apply IHm. now apply well_formed_dict_set.
Qed.

Lemma json_loads_well_formed (s : string) (v : pyval) :
  json_loads s = Some v -> well_formed v = true.
Proof.
  unfold json_loads.
  destruct (parse_value (S (String.length s)) (skip_ws s))
    as [[x r]|] eqn:Hx; [|discriminate].
  destruct (skip_ws r); [|discriminate].
  intros H; inversion H; subst.
  exact (proj1 (parse_well_formed _) _ _ _ Hx).
Qed.

End JsonRoundTrip.

(** ** The credential cache *)

(** C9. A credential written by [save] (the cache write of
    [authenticate]) and read back by [load] (the cache read of
    [get_token]) is the credential that was written; so is its token, and
    so are the claims the expiry check reads from the token. The libraries
    are the reference ones; a credential is an object of Python, as every
    value that [json.loads] returns is. *)
Theorem save_load_round_trip (w : World) (auth : pyval) :
  well_formed auth = true ->
  fs w AUTH_FILE <> Unreadable ->
  let cached := fst (load (L := cpython) (snd (save (L := cpython) auth w))) in
  cached = Ok auth /\
  rbind cached (fun a => py_get a "token" (PyStr ""))
  = py_get auth "token" (PyStr "") /\
  rbind cached (fun a =>
    rbind (py_get a "token" (PyStr "")) (decode_claims (L := cpython)))
  = rbind (py_get auth "token" (PyStr "")) (decode_claims (L := cpython)).
Proof.
  intros Hwf Hfile cached.
  assert (Hc : cached = Ok auth).
  { unfold cached. rewrite (save_ok (L := cpython) auth w Hfile).
    cbn [snd]. unfold load, bind, open_read. cbn.
    rewrite (JsonRoundTrip.json_loads_dumps auth Hwf). reflexivity. }
  rewrite Hc. repeat split.
Qed.

Lemma save_load_round_trip_witness :
  let auth := PyDict [("token", PyStr fresh_token); ("agent_id", PyInt 42);
                      ("scopes", PyList [PyStr "read"; PyStr "write"])] in
  fst (load (L := cpython)
         (snd (save (L := cpython) auth (world Missing [])))) = Ok auth.
Proof.
  intros auth.
  apply (save_load_round_trip (world Missing []) auth);
    [reflexivity|discriminate].
Defined.

(** * Further properties of the program *)

(** ** What a run may change *)

Lemma evolves_refl (w : World) : evolves 0 w w.
Proof.
  repeat split. exists [], []. rewrite List.app_nil_r. simpl. auto.
Qed.

Lemma evolves_le (a n : nat) (w w' : World) :
  evolves a w w' -> (a <= n)%nat -> evolves n w w'.
Proof.
  intros (Hnow & Hkeys & l & used & He & Hs & Hu & Hl) Hle.
  repeat split; try assumption. exists l, used. repeat split; auto; lia.
Qed.

Lemma evolves_trans (a b : nat) (w w1 w2 : World) :
  evolves a w w1 -> evolves b w1 w2 -> evolves (a + b) w w2.
Proof.
  intros (Hnow1 & Hkeys1 & l1 & u1 & He1 & Hs1 & Hu1 & Hl1)
         (Hnow2 & Hkeys2 & l2 & u2 & He2 & Hs2 & Hu2 & Hl2).
  split; [congruence|]. split.
  - intros p Hp. rewrite Hkeys2, Hkeys1; auto.
  - exists (l1 ++ l2)%list, (u1 ++ u2)%list.
    rewrite He2, He1, Hs1, Hs2, filter_app, !List.length_app, !List.app_assoc.
    repeat split; lia.
Qed.

Lemma evolves_log (e : event) (w : World) :
  is_http e = false -> evolves 0 w (log e w).
Proof.
  intros He. repeat split. exists [e], []. simpl. rewrite He. simpl. auto.
Qed.

Lemma within_le {A} (a n : nat) (m : M A) :
  within a m -> (a <= n)%nat -> within n m.
Proof. intros H Hle w. exact (evolves_le _ _ _ _ (H w) Hle). Qed.

Lemma within_ret {A} (a : A) : within 0 (ret a).
Proof. intros w. apply evolves_refl. Qed.

Lemma within_raise {A} (e : exn) : within 0 (raise (A := A) e).
Proof. intros w. apply evolves_refl. Qed.

Lemma within_lift {A} (r : result A) : within 0 (lift r).
Proof. intros w. apply evolves_refl. Qed.

Lemma within_bind {A B} (a b : nat) (m : M A) (k : A -> M B) :
  within a m -> (forall x, within b (k x)) -> within (a + b) (bind m k).
Proof.
  intros Hm Hk w. unfold bind. specialize (Hm w).
  destruct (m w) as [[x|e] w1]; cbn [snd] in *.
  - exact (evolves_trans _ _ _ _ _ Hm (Hk x w1)).
  - apply (evolves_le a); [assumption|lia].
Qed.

Lemma within_try {A} (a b : nat) (m : M A) (h : exn -> M A) :
  within a m -> (forall e, within b (h e)) -> within (a + b) (try_except m h).
Proof.
  intros Hm Hh w. unfold try_except. specialize (Hm w).
  destruct (m w) as [[x|e] w1]; cbn [snd] in *.
  - apply (evolves_le a); [assumption|lia].
  - exact (evolves_trans _ _ _ _ _ Hm (Hh e w1)).
Qed.

Lemma within_path_exists (p : path) : within 0 (path_exists p).
Proof.
  intros w. unfold path_exists. destruct (fs w p); apply evolves_refl.
Qed.

Lemma within_open_read (p : path) : within 0 (open_read p).
Proof.
  intros w. unfold open_read. destruct (fs w p); now apply evolves_log.
Qed.

Lemma within_time : within 0 time_time.
Proof. intros w. apply evolves_refl. Qed.

Lemma within_print (line : string) : within 0 (print_stderr line).
Proof. intros w. now apply evolves_log. Qed.

Lemma within_http (rq : request) : within 1 (http rq).
Proof.
  intros w. unfold http. cbn [server log].
  destruct (server w) as [|[r|] rest] eqn:Hs; cbn [snd];
    (split; [reflexivity|]); (split; [reflexivity|]).
  - exists [EvHttp rq], []. simpl. auto.
  - exists [EvHttp rq], [Reply r]. simpl. auto.
  - exists [EvHttp rq], [NoReply]. simpl. auto.
Qed.

Lemma within_raise_for_status (r : response) : within 0 (raise_for_status r).
Proof.
  unfold raise_for_status. destruct (ok r);
    [apply within_ret|apply within_raise].
Qed.

(** Case analysis on a run: on the scrutinees that are not themselves a
    case analysis, outermost first. *)
Ltac run_step :=
  match goal with
  | |- context [match ?x with _ => _ end] =>
      lazymatch x with
      | context [match _ with _ => _ end] => fail
      | _ => destruct x eqn:?
      end
  end.

Ltac run_cases :=
  cbn [fs log server set_server set_file events now fst snd path_eqb];
  repeat (run_step;
          cbn [fs log server set_server set_file events now fst snd path_eqb]).

Section Coverage.

Context {L : PyLib}.

Lemma within_resp_json (r : response) : within 0 (resp_json r).
Proof.
  unfold resp_json. destruct (json_loads (text r));
    [apply within_ret|apply within_raise].
Qed.

Lemma within_save (auth : pyval) : within 0 (save auth).
Proof.
  intros w. unfold save, open_write.
  destruct (fs w AUTH_FILE); cbn [snd]; try (now apply evolves_log);
    (split; [reflexivity|]); (split;
      [intros p Hp; cbn; destruct p; try reflexivity; now elim Hp|]);
    exists [EvOpenWrite AUTH_FILE], []; simpl; auto.
Qed.

Lemma within_load : within 0 load.
Proof.
  unfold load. apply (within_bind 0 0); [apply within_open_read|].
  intros data. destruct (json_loads data);
    [apply within_ret|apply within_raise].
Qed.

Lemma within_load_keys : within 0 load_keys.
Proof.
  unfold load_keys.
  apply (within_bind 0 0); [apply within_open_read|intros raw].
  apply (within_bind 0 0); [apply within_lift|intros key].
  apply (within_bind 0 0); [apply within_open_read|intros pem].
  apply within_ret.
Qed.

Lemma within_authenticate : within 2 authenticate.
Proof.
  unfold authenticate, requests_post.
  apply (within_bind 0 2); [apply within_load_keys|intros [key pem]].
  apply (within_bind 1 1); [apply within_http|intros r1].
  apply (within_bind 0 1); [apply within_raise_for_status|intros _].
  apply (within_bind 0 1); [apply within_resp_json|intros challenge].
  apply (within_bind 0 1); [apply within_lift|intros nonce_b64].
  apply (within_bind 0 1); [apply within_lift|intros nonce].
  apply (within_bind 1 0); [apply within_http|intros r2].
  apply (within_bind 0 0); [apply within_raise_for_status|intros _].
  apply (within_bind 0 0); [apply within_resp_json|intros auth].
  apply (within_bind 0 0); [apply within_save|intros _].
  apply within_lift.
Qed.

Lemma within_check_expiry (token : pyval) : within 0 (check_expiry token).
Proof. intros w. rewrite check_expiry_eq. apply evolves_refl. Qed.

Lemma within_get_token : within 2 get_token.
Proof.
  unfold get_token.
  apply (within_bind 0 2); [apply within_path_exists|intros [|]];
    [|apply within_authenticate].
  apply (within_bind 0 2); [apply within_load|intros auth].
  apply (within_bind 0 2); [apply within_lift|intros token].
  apply (within_bind 0 2); [apply within_check_expiry|intros [tok|]];
    [apply (within_le 0); [apply within_ret|lia]|apply within_authenticate].
Qed.

Lemma within_api_get (path : string) (params : pyval) :
  within 3 (api_get path params).
Proof.
  unfold api_get, requests_get.
  apply (within_bind 2 1); [apply within_get_token|intros token].
  apply (within_bind 1 0); [apply within_http|intros r].
  apply (within_bind 0 0); [apply within_raise_for_status|intros _].
  apply within_resp_json.
Qed.

Lemma within_diagnostic (r : response) :
  within 0 (if ok r then ret tt else print_stderr (error_line r)).
Proof. destruct (ok r); [apply within_ret|apply within_print]. Qed.

Lemma within_api_post (path : string) (data : pyval) :
  within 3 (api_post path data).
Proof.
  unfold api_post, requests_post.
  apply (within_bind 2 1); [apply within_get_token|intros token].
  apply (within_bind 1 0); [apply within_http|intros r].
  apply (within_bind 0 0); [apply within_diagnostic|intros _].
  apply (within_bind 0 0); [apply within_raise_for_status|intros _].
  apply within_resp_json.
Qed.

Lemma within_api_put (path : string) (data : pyval) :
  within 3 (api_put path data).
Proof.
  unfold api_put, requests_put.
  apply (within_bind 2 1); [apply within_get_token|intros token].
  apply (within_bind 1 0); [apply within_http|intros r].
  apply (within_bind 0 0); [apply within_diagnostic|intros _].
  apply (within_bind 0 0); [apply within_raise_for_status|intros _].
  apply within_resp_json.
Qed.

Lemma within_printed (n : nat) (m : M pyval) :
  within n m ->
  within n (result <- m ;; ret (Printed (json_dumps result))).
Proof.
  intros H. apply (within_le (n + 0)); [|lia].
  apply within_bind; [assumption|intros v; apply within_ret].
Qed.

Lemma within_main (dumps : pyval -> string) (argv : list string) :
  within 3 (main dumps argv).
Proof.
  unfold main.
  repeat match goal with
         | |- within _ (if ?b then _ else _) => destruct b
         end.
  - apply (within_bind 2 1); [apply within_get_token|intros token].
    apply (within_bind 0 1); [apply within_lift|intros preview].
    apply (within_le 0); [apply within_ret|lia].
  - apply (within_bind 0 3); [apply within_lift|intros name].
    apply within_printed, within_api_post.
  - apply (within_bind 0 3); [apply within_lift|intros channel_id].
    apply (within_bind 0 3); [apply within_lift|intros body].
    apply within_printed, within_api_post.
  - apply within_printed, within_api_get.
  - apply (within_bind 0 3); [apply within_lift|intros channel_id].
    apply within_printed, within_api_get.
  - apply within_printed, within_api_get.
  - apply within_printed, within_api_get.
  - apply (within_bind 0 3); [apply within_print|intros _].
    apply (within_le 0); [apply within_ret|lia].
Qed.

(** ** The outcomes of [authenticate] *)


(** A token that [authenticate] returns is the [token] of an answer of
    the service that the credential file holds by then. *)
Lemma authenticate_ok_inv (w : World) (tok : pyval) :
  fst (authenticate w) = Ok tok ->
  exists (r1 r2 : response) (rest : list reply) (auth : pyval),
    server w = Reply r1 :: Reply r2 :: rest /\
    json_loads (text r2) = Some auth /\
    py_getitem auth "token" = Ok tok /\
    fs (snd (authenticate w)) AUTH_FILE = Content (json_dumps auth) /\
    server (snd (authenticate w)) = rest /\
    now (snd (authenticate w)) = now w.
Proof.
  unfold authenticate, load_keys, requests_post, bind, open_read, lift, http,
    raise_for_status, resp_json, save, open_write, ret, raise.
  run_cases; intros H; try discriminate H; eauto 12.
Qed.

(** X2. [authenticate] returns a token only after it has persisted it: when
    it returns [tok], the service has answered both requests without an
    error status, the body of its second answer reads as the JSON value
    [auth] whose [token] is [tok], and the credential file holds
    [json.dump] of that [auth]. *)
Theorem authenticate_returns_persisted_token (w : World) (tok : pyval) :
  fst (authenticate w) = Ok tok ->
  exists (r1 r2 : response) (rest : list reply) (auth : pyval),
    server w = Reply r1 :: Reply r2 :: rest /\
    ok r1 = true /\ ok r2 = true /\
    json_loads (text r2) = Some auth /\
    py_getitem auth "token" = Ok tok /\
    fs (snd (authenticate w)) AUTH_FILE = Content (json_dumps auth) /\
    server (snd (authenticate w)) = rest.
Proof.
  unfold authenticate, load_keys, requests_post, bind, open_read, lift, http,
    raise_for_status, resp_json, save, open_write, ret, raise.
  run_cases; intros H; try discriminate H; eauto 20.
Qed.

(** X3. Unusable key files make [authenticate] fail before anything is
    sent: no request, no answer of the service consumed, no file
    changed. *)
Theorem authenticate_without_keys (w : World) :
  key_files_usable w = false ->
  (exists e, fst (authenticate w) = Raise e) /\
  server (snd (authenticate w)) = server w /\
  same_files w (snd (authenticate w)) /\
  filter is_http (events (snd (authenticate w))) = filter is_http (events w).
Proof.
  unfold key_files_usable, same_files.
  unfold authenticate, load_keys, requests_post, bind, open_read, lift, http,
    raise_for_status, resp_json, save, open_write, ret, raise.
  cbn [fs log].
  destruct (fs w PRIVATE_KEY_FILE) as [| |raw] eqn:Hpriv;
    cbn [fs log server events fst snd]; intros H;
    rewrite ?filter_app, ?List.app_nil_r; simpl; eauto 6.
  destruct (from_private_bytes (substring 0 32 raw)) as [key|e] eqn:Hkey;
    cbn [fs log server events fst snd];
    rewrite ?filter_app, ?List.app_nil_r; simpl; eauto 6.
  destruct (fs w PUBLIC_KEY_FILE) as [| |pem] eqn:Hpub;
    cbn [fs log server events fst snd];
    rewrite ?filter_app, ?List.app_nil_r; simpl; eauto 6.
  exfalso. destruct (Nat.leb_spec 32 (String.length raw)); [discriminate|].
  rewrite from_private_bytes_short in Hkey by assumption. discriminate.
Qed.

(** X4. When the challenge is answered without an error status but no
    nonce can be read from the answer (the body is not JSON, has no
    [nonce], or the nonce is not base64), [authenticate] fails with the
    exception of that step after its one request: the second request is not
    sent and no file is changed. *)
Theorem authenticate_unusable_challenge (w : World) (raw pem : string)
  (r : response) (rest : list reply) (e : exn) :
  fs w PRIVATE_KEY_FILE = Content raw ->
  (32 <= String.length raw)%nat ->
  fs w PUBLIC_KEY_FILE = Content pem ->
  server w = Reply r :: rest ->
  ok r = true ->
  challenge_nonce r = Raise e ->
  fst (authenticate w) = Raise e /\
  same_files w (snd (authenticate w)) /\
  server (snd (authenticate w)) = rest /\
  new_events w (snd (authenticate w))
    [EvOpenRead PRIVATE_KEY_FILE; EvOpenRead PUBLIC_KEY_FILE;
     EvHttp (challenge_request (strip pem))].
Proof.
  intros Hpriv Hlen Hpub Hs Hok Hn.
  unfold challenge_nonce in Hn. unfold same_files, new_events.
  unfold authenticate, load_keys, requests_post, bind, open_read, lift, http,
    raise_for_status, resp_json, save, open_write, ret, raise.
  cbn [fs log server set_server fst snd].
  rewrite Hpriv, (from_private_bytes_prefix raw Hlen).
  cbn [fs log server set_server fst snd]. rewrite Hpub.
  cbn [fs log server set_server fst snd]. rewrite Hs, Hok.
  cbn [fs log server set_server fst snd].
  destruct (json_loads (text r)) as [challenge|];
    [destruct (py_getitem challenge "nonce") as [nonce_b64|e1];
     cbn [rbind] in Hn; [rewrite Hn|]|];
    cbn [fs log server set_server events fst snd];
    rewrite <- !List.app_assoc; repeat split; congruence.
Qed.

(** X5. When the authenticate endpoint answers with a status from 400 to
    599, [authenticate] fails with an [HTTPError] that carries that status
    and body, after its two requests, and no file is written or
    modified. *)
Theorem authenticate_rejected (w : World) (raw pem : string)
  (r1 r2 : response) (rest : list reply) (nonce : string) :
  fs w PRIVATE_KEY_FILE = Content raw ->
  (32 <= String.length raw)%nat ->
  fs w PUBLIC_KEY_FILE = Content pem ->
  server w = Reply r1 :: Reply r2 :: rest ->
  ok r1 = true ->
  challenge_nonce r1 = Ok nonce ->
  400 <= status_code r2 < 600 ->
  fst (authenticate w) = Raise (HTTPError (status_code r2) (text r2)) /\
  same_files w (snd (authenticate w)) /\
  new_events w (snd (authenticate w))
    [EvOpenRead PRIVATE_KEY_FILE; EvOpenRead PUBLIC_KEY_FILE;
     EvHttp (challenge_request (strip pem));
     EvHttp (authenticate_request (strip pem)
               (b64encode (ed25519_sign (substring 0 32 raw) nonce)))].
Proof.
  intros Hpriv Hlen Hpub Hs Hok1 Hn Hst.
  assert (Hok2 : ok r2 = false).
  { unfold ok. destruct (Z.leb_spec 400 (status_code r2)); [|lia].
    destruct (Z.ltb_spec (status_code r2) 600); [reflexivity|lia]. }
  unfold challenge_nonce in Hn.
  destruct (json_loads (text r1)) as [challenge|] eqn:Hj; [|discriminate].
  destruct (py_getitem challenge "nonce") as [nonce_b64|] eqn:Hg;
    [|discriminate].
  simpl in Hn. unfold authenticate.
  rewrite (bind_ok _ _ _ _ _ (load_keys_ok w raw pem Hpriv Hlen Hpub)).
  unfold requests_post.
  erewrite bind_ok by (apply http_reply; simpl; exact Hs).
  erewrite bind_ok by (apply raise_for_status_ok; exact Hok1).
  erewrite bind_ok by (apply resp_json_ok; exact Hj).
  rewrite Hg. rewrite (bind_ok _ _ _ _ _ (lift_eq (Ok _) _)).
  rewrite Hn. rewrite (bind_ok _ _ _ _ _ (lift_eq (Ok _) _)).
  erewrite bind_ok by (apply http_reply; simpl; reflexivity).
  erewrite bind_raise by (apply raise_for_status_error; exact Hok2).
  unfold new_events. simpl. rewrite <- !List.app_assoc. repeat split.
Qed.

(** X6. No retry and nothing else touched: whatever the world and the
    libraries are, [authenticate] and [get_token] send at most two
    requests, use at most one answer of the service for each, only add to
    the events, and leave both key files as they were. *)
Theorem session_sends_at_most_two_requests :
  within 2 authenticate /\ within 2 get_token.
Proof. split; [apply within_authenticate|apply within_get_token]. Qed.

(** X7. Likewise an API call and a run of the script: at most three
    requests (two for a fresh credential, one for the call), and the key
    files as they were. *)
Theorem calls_send_at_most_three_requests :
  (forall path params, within 3 (api_get path params)) /\
  (forall path data, within 3 (api_post path data)) /\
  (forall path data, within 3 (api_put path data)) /\
  (forall dumps argv, within 3 (main dumps argv)).
Proof.
  split; [|split; [|split]]; intros.
  - apply within_api_get.
  - apply within_api_post.
  - apply within_api_put.
  - apply within_main.
Qed.

(** ** The cache and the expiry check *)

(** X8. A fresh cached token is returned again by the next call: the
    second [get_token] yields the same token, and after both calls the
    answers of the service are untouched and every file is as it was. *)
Theorem get_token_twice (w : World) (data : string) (auth token : pyval) :
  fs w AUTH_FILE = Content data ->
  json_loads data = Some auth ->
  py_get auth "token" (PyStr "") = Ok token ->
  token_fresh (now w) token = true ->
  let w1 := snd (get_token w) in
  fst (get_token w) = Ok token /\
  fst (get_token w1) = Ok token /\
  server (snd (get_token w1)) = server w /\
  same_files w (snd (get_token w1)) /\
  new_events w (snd (get_token w1)) [EvOpenRead AUTH_FILE; EvOpenRead AUTH_FILE].
Proof.
  intros Hf Hj Ht Hfresh w1. unfold w1.
  rewrite (get_token_cached w data auth token Hf Hj Ht), Hfresh.
  cbn [fst snd].
  rewrite (get_token_cached (log (EvOpenRead AUTH_FILE) w) data auth token
             Hf Hj Ht).
  cbn [now log]. rewrite Hfresh. unfold new_events. cbn.
  rewrite <- List.app_assoc. repeat split.
Qed.

(** X9. The first run: without a credential file [get_token] does not
    try to read one; with the keys in place and both requests answered it
    returns the [token] of the second answer and creates the credential
    file with that answer. *)
Theorem get_token_first_run (w : World) (raw pem : string)
  (r1 r2 : response) (rest : list reply) (auth tok : pyval) (nonce : string) :
  fs w AUTH_FILE = Missing ->
  fs w PRIVATE_KEY_FILE = Content raw ->
  (32 <= String.length raw)%nat ->
  fs w PUBLIC_KEY_FILE = Content pem ->
  server w = Reply r1 :: Reply r2 :: rest ->
  ok r1 = true ->
  challenge_nonce r1 = Ok nonce ->
  ok r2 = true ->
  json_loads (text r2) = Some auth ->
  py_getitem auth "token" = Ok tok ->
  fst (get_token w) = Ok tok /\
  fs (snd (get_token w)) AUTH_FILE = Content (json_dumps auth) /\
  new_events w (snd (get_token w))
    [EvOpenRead PRIVATE_KEY_FILE; EvOpenRead PUBLIC_KEY_FILE;
     EvHttp (challenge_request (strip pem));
     EvHttp (authenticate_request (strip pem)
               (b64encode (ed25519_sign (substring 0 32 raw) nonce)));
     EvOpenWrite AUTH_FILE].
Proof.
  intros Hf Hpriv Hlen Hpub Hs Hok1 Hn Hok2 Hj2 Htok.
  unfold challenge_nonce in Hn.
  destruct (json_loads (text r1)) as [challenge|] eqn:Hj1; [|discriminate].
  destruct (py_getitem challenge "nonce") as [nonce_b64|] eqn:Hg;
    [|discriminate].
  cbn [rbind] in Hn. rewrite (get_token_no_cache w Hf).
  destruct (authenticate_cycle w raw pem r1 r2 rest challenge nonce_b64 auth
              tok nonce) as (Hres & Hev & Hfile & _);
    try assumption; [rewrite Hf; discriminate|auto].
Qed.

Lemma no_usable_exp_not_fresh (t : Q) (token : pyval) :
  no_usable_exp t token -> token_fresh t token = false.
Proof.
  intros [claims Hc Hnd | c Hc He Ht | c e Hc He Hgt]; unfold token_fresh;
    rewrite Hc.
  - destruct claims; try reflexivity. now elim (Hnd d).
  - simpl. rewrite He. simpl. apply Qltb_ge. exact Ht.
  - simpl. rewrite He, Hgt. reflexivity.
Qed.

(** X10. A cached token whose claims are not an object, have no [exp]
    (the clock not being before 1970 by more than two minutes), or have an
    [exp] that is not a number is not returned: [get_token]
    authenticates. *)
Theorem get_token_without_usable_exp (w : World) (data : string)
  (auth token : pyval) :
  fs w AUTH_FILE = Content data ->
  json_loads data = Some auth ->
  py_get auth "token" (PyStr "") = Ok token ->
  no_usable_exp (now w) token ->
  get_token w = authenticate (log (EvOpenRead AUTH_FILE) w).
Proof.
  intros Hf Hj Ht Hexp.
  rewrite (get_token_cached w data auth token Hf Hj Ht).
  now rewrite (no_usable_exp_not_fresh _ _ Hexp).
Qed.

(** *** The segments of a token *)

Lemma split_on_dot_free (s : string) :
  dot_free s = true -> split_on "." s = [s].
Proof.
  induction s as [|c s IH]; simpl; [reflexivity|].
  intros H. apply andb_true_iff in H as [Hc Hs].
  apply negb_true_iff in Hc. rewrite Hc, (IH Hs). reflexivity.
Qed.

Lemma split_on_segment (h t : string) :
  dot_free h = true ->
  split_on "." (h ++ String "." t) = h :: split_on "." t.
Proof.
  induction h as [|c h IH]; simpl; [reflexivity|].
  intros H. apply andb_true_iff in H as [Hc Hh].
  apply negb_true_iff in Hc. rewrite Hc, (IH Hh). reflexivity.
Qed.

Lemma split_on_nonempty (s : string) : split_on "." s <> [].
Proof.
  destruct s as [|c s]; simpl; [discriminate|].
  destruct (Ascii.eqb c "."); [discriminate|].
  destruct (split_on "." s); discriminate.
Qed.

Lemma split_on_head (p s : string) :
  dot_free p = true ->
  exists tl, split_on "." (p ++ String "." s) = p :: tl.
Proof. intros H. rewrite (split_on_segment _ _ H). eauto. Qed.

Lemma decode_claims_payload (parts : list string) (h p s : string) :
  split_on "." s = h :: p :: parts ->
  decode_claims (PyStr s)
  = rbind (py_b64decode (PyStr (padded p))) py_json_loads_bytes.
Proof.
  intros H. unfold decode_claims, py_split_dot. cbn [rbind]. rewrite H.
  reflexivity.
Qed.

(** X11. Only the second segment of a token is looked at: for a header
    and a payload without a dot, whatever follows the payload (no
    signature, any signature, more segments), the claims are what
    [json.loads] makes of the base64 decoding of the payload with its one
    to four pad characters. Header and signature are never inspected. *)
Theorem decode_claims_reads_the_payload_only (h p : string) :
  dot_free h = true ->
  dot_free p = true ->
  decode_claims (PyStr (h ++ "." ++ p))
  = rbind (py_b64decode (PyStr (padded p))) py_json_loads_bytes /\
  forall sig : string,
    decode_claims (PyStr (h ++ "." ++ p ++ "." ++ sig))
    = rbind (py_b64decode (PyStr (padded p))) py_json_loads_bytes.
Proof.
  intros Hh Hp. split; [|intros sig].
  - apply (decode_claims_payload [] h).
    change ("." ++ p) with (String "." p).
    now rewrite (split_on_segment _ _ Hh), (split_on_dot_free _ Hp).
  - change ("." ++ p ++ "." ++ sig) with (String "." (p ++ String "." sig)).
    rewrite (decode_claims_payload (split_on "." sig) h p); [reflexivity|].
    now rewrite (split_on_segment _ _ Hh), (split_on_segment _ _ Hp).
Qed.

(** X12. A cached token that has no second segment (a string without a
    dot) or is not a string is never returned: [get_token]
    authenticates. *)
Theorem get_token_unsplittable_token (w : World) (data : string)
  (auth token : pyval) :
  fs w AUTH_FILE = Content data ->
  json_loads data = Some auth ->
  py_get auth "token" (PyStr "") = Ok token ->
  (forall s, token = PyStr s -> dot_free s = true) ->
  get_token w = authenticate (log (EvOpenRead AUTH_FILE) w).
Proof.
  intros Hf Hj Ht Hdot.
  rewrite (get_token_cached w data auth token Hf Hj Ht).
  assert (Hfail : exists e, decode_claims token = Raise e).
  { destruct token; try (exists AttributeError; reflexivity).
    exists IndexError. unfold decode_claims, py_split_dot. cbn [rbind].
    now rewrite (split_on_dot_free s (Hdot s eq_refl)). }
  destruct Hfail as [e He]. unfold token_fresh. now rewrite He.
Qed.

End Coverage.

(** ** What a run adds to the events *)

Lemma emits_ret (P : event -> Prop) {A} (a : A) : emits P (ret a).
Proof. intros w. exists []. now rewrite List.app_nil_r. Qed.

Lemma emits_raise (P : event -> Prop) {A} (e : exn) :
  emits P (raise (A := A) e).
Proof. intros w. exists []. now rewrite List.app_nil_r. Qed.

Lemma emits_lift (P : event -> Prop) {A} (r : result A) : emits P (lift r).
Proof. intros w. exists []. now rewrite List.app_nil_r. Qed.

Lemma emits_log (P : event -> Prop) (e : event) (w w' : World) :
  P e -> events w' = events (log e w) ->
  exists l, events w' = (events w ++ l)%list /\ Forall P l.
Proof. intros He Hw. exists [e]. rewrite Hw. now repeat constructor. Qed.

Lemma emits_bind (P : event -> Prop) {A B} (m : M A) (k : A -> M B) :
  emits P m -> (forall x, emits P (k x)) -> emits P (bind m k).
Proof.
  intros Hm Hk w. unfold bind. destruct (Hm w) as (l1 & H1 & HP1).
  destruct (m w) as [[x|e] w1]; cbn [snd] in *; [|eauto].
  destruct (Hk x w1) as (l2 & H2 & HP2). exists (l1 ++ l2)%list.
  rewrite H2, H1, List.app_assoc. split; [reflexivity|].
  apply Forall_app. now split.
Qed.

Lemma emits_try (P : event -> Prop) {A} (m : M A) (h : exn -> M A) :
  emits P m -> (forall e, emits P (h e)) -> emits P (try_except m h).
Proof.
  intros Hm Hh w. unfold try_except. destruct (Hm w) as (l1 & H1 & HP1).
  destruct (m w) as [[x|e] w1]; cbn [snd] in *; [eauto|].
  destruct (Hh e w1) as (l2 & H2 & HP2). exists (l1 ++ l2)%list.
  rewrite H2, H1, List.app_assoc. split; [reflexivity|].
  apply Forall_app. now split.
Qed.

Lemma emits_path_exists (P : event -> Prop) (p : path) :
  emits P (path_exists p).
Proof.
  intros w. exists []. rewrite List.app_nil_r. unfold path_exists.
  now destruct (fs w p).
Qed.

Lemma emits_open_read (P : event -> Prop) (p : path) :
  P (EvOpenRead p) -> emits P (open_read p).
Proof.
  intros HP w. apply (emits_log P (EvOpenRead p)); [assumption|].
  unfold open_read. now destruct (fs w p).
Qed.

Lemma emits_open_write (P : event -> Prop) (p : path) (data : string) :
  P (EvOpenWrite p) -> emits P (open_write p data).
Proof.
  intros HP w. apply (emits_log P (EvOpenWrite p)); [assumption|].
  unfold open_write. now destruct (fs w p).
Qed.

Lemma emits_time (P : event -> Prop) : emits P time_time.
Proof. intros w. exists []. now rewrite List.app_nil_r. Qed.

Lemma emits_print (P : event -> Prop) (line : string) :
  P (EvStderr line) -> emits P (print_stderr line).
Proof. intros HP w. now apply (emits_log P (EvStderr line)). Qed.

Lemma emits_http (P : event -> Prop) (rq : request) :
  P (EvHttp rq) -> emits P (http rq).
Proof.
  intros HP w. apply (emits_log P (EvHttp rq)); [assumption|].
  unfold http. cbn [server log]. now destruct (server w) as [|[r|] rest].
Qed.

Lemma emits_raise_for_status (P : event -> Prop) (r : response) :
  emits P (raise_for_status r).
Proof.
  unfold raise_for_status. destruct (ok r);
    [apply emits_ret|apply emits_raise].
Qed.

Section Emits.

Context {L : PyLib}.

Variable P : event -> Prop.

Hypothesis read_allowed : forall p, P (EvOpenRead p).
Hypothesis write_allowed : P (EvOpenWrite AUTH_FILE).
Hypothesis challenge_allowed : forall pem, P (EvHttp (challenge_request pem)).
Hypothesis exchange_allowed :
  forall pem signature, P (EvHttp (authenticate_request pem signature)).

Lemma emits_resp_json (r : response) : emits P (resp_json r).
Proof.
  unfold resp_json. destruct (json_loads (text r));
    [apply emits_ret|apply emits_raise].
Qed.

Lemma emits_load_keys : emits P load_keys.
Proof.
  unfold load_keys.
  apply emits_bind; [now apply emits_open_read|intros raw].
  apply emits_bind; [apply emits_lift|intros key].
  apply emits_bind; [now apply emits_open_read|intros pem].
  apply emits_ret.
Qed.

Lemma emits_authenticate : emits P authenticate.
Proof.
  unfold authenticate, requests_post.
  apply emits_bind; [apply emits_load_keys|intros [key pem]].
  apply emits_bind; [apply emits_http, challenge_allowed|intros r1].
  apply emits_bind; [apply emits_raise_for_status|intros _].
  apply emits_bind; [apply emits_resp_json|intros challenge].
  apply emits_bind; [apply emits_lift|intros nonce_b64].
  apply emits_bind; [apply emits_lift|intros nonce].
  apply emits_bind; [apply emits_http, exchange_allowed|intros r2].
  apply emits_bind; [apply emits_raise_for_status|intros _].
  apply emits_bind; [apply emits_resp_json|intros auth].
  apply emits_bind; [now apply emits_open_write|intros _].
  apply emits_lift.
Qed.

Lemma emits_get_token : emits P get_token.
Proof.
  unfold get_token.
  apply emits_bind; [apply emits_path_exists|intros [|]];
    [|apply emits_authenticate].
  apply emits_bind.
  { unfold load. apply emits_bind; [now apply emits_open_read|intros data].
    destruct (json_loads data); [apply emits_ret|apply emits_raise]. }
  intros auth. apply emits_bind; [apply emits_lift|intros token].
  apply emits_bind.
  { intros w. rewrite check_expiry_eq. exists [].
    now rewrite List.app_nil_r. }
  intros [tok|]; [apply emits_ret|apply emits_authenticate].
Qed.

Lemma emits_api_get (path : string) (params : pyval) :
  (forall token,
     P (EvHttp {| rq_method := GET; rq_url := BASE_URL ++ path;
                  rq_bearer := Some token; rq_params := params;
                  rq_json := None |})) ->
  emits P (api_get path params).
Proof.
  intros HP. unfold api_get, requests_get.
  apply emits_bind; [apply emits_get_token|intros token].
  apply emits_bind; [apply emits_http, HP|intros r].
  apply emits_bind; [apply emits_raise_for_status|intros _].
  apply emits_resp_json.
Qed.

Lemma emits_api_post (path : string) (data : pyval) :
  (forall token,
     P (EvHttp {| rq_method := POST; rq_url := BASE_URL ++ path;
                  rq_bearer := Some token; rq_params := PyNone;
                  rq_json := Some data |})) ->
  (forall r, P (EvStderr (error_line r))) ->
  emits P (api_post path data).
Proof.
  intros HP Herr. unfold api_post, requests_post.
  apply emits_bind; [apply emits_get_token|intros token].
  apply emits_bind; [apply emits_http, HP|intros r].
  apply emits_bind;
    [destruct (ok r); [apply emits_ret|apply emits_print, Herr]|intros _].
  apply emits_bind; [apply emits_raise_for_status|intros _].
  apply emits_resp_json.
Qed.

Lemma emits_api_put (path : string) (data : pyval) :
  (forall token json,
     P (EvHttp {| rq_method := PUT; rq_url := BASE_URL ++ path;
                  rq_bearer := Some token; rq_params := PyNone;
                  rq_json := Some json |})) ->
  (forall r, P (EvStderr (error_line r))) ->
  emits P (api_put path data).
Proof.
  intros HP Herr. unfold api_put, requests_put.
  apply emits_bind; [apply emits_get_token|intros token].
  apply emits_bind; [apply emits_http, HP|intros r].
  apply emits_bind;
    [destruct (ok r); [apply emits_ret|apply emits_print, Herr]|intros _].
  apply emits_bind; [apply emits_raise_for_status|intros _].
  apply emits_resp_json.
Qed.

End Emits.

Section Calls.

Context {L : PyLib}.

(** X13. Authentication and [api_get] never write to the standard error,
    whatever the files hold and whatever the service answers. *)
Theorem get_token_and_api_get_are_silent :
  emits silent authenticate /\
  emits silent get_token /\
  forall path params, emits silent (api_get path params).
Proof.
  split; [|split]; [| |intros path params].
  - now apply emits_authenticate.
  - now apply emits_get_token.
  - now apply emits_api_get.
Qed.

(** X14. An API call sends one request after [get_token], to [path] under
    the base URL and with the token that [get_token] returned. On a status
    that is no error it prints nothing and returns the body as
    [json.loads] reads it, or fails with a [ValueError] for a body that is
    no JSON. *)
Theorem api_calls_on_success (w w1 : World) (path : string)
  (arg token : pyval) (r : response) (rest : list reply) :
  get_token w = (Ok token, w1) ->
  server w1 = Reply r :: rest ->
  ok r = true ->
  let answer :=
    match json_loads (text r) with
    | Some v => Ok v
    | None => Raise ValueError
    end in
  let sent method params json :=
    set_server rest
      (log (EvHttp {| rq_method := method; rq_url := BASE_URL ++ path;
                      rq_bearer := Some token; rq_params := params;
                      rq_json := json |}) w1) in
  api_get path arg w = (answer, sent GET arg None) /\
  api_post path arg w = (answer, sent POST PyNone (Some arg)) /\
  api_put path arg w
  = (answer,
     sent PUT PyNone (Some (if py_truthy arg then arg else PyDict []))).
Proof.
  intros Hg Hs Hok answer sent. unfold answer, sent.
  unfold api_get, api_post, api_put, requests_get, requests_post,
    requests_put.
  rewrite !(bind_ok _ _ _ _ _ Hg).
  split; [|split]; (erewrite bind_ok by (apply http_reply; exact Hs));
    rewrite ?Hok; repeat (erewrite bind_ok by reflexivity);
    (erewrite bind_ok by (apply raise_for_status_ok; exact Hok));
    unfold resp_json; now destruct (json_loads (text r)).
Qed.

(** X15. On a status in 400..599 [api_post] and [api_put] add exactly two
    events after [get_token]: the request, then the line
    [ERROR <status>: <body>] on the standard error; and they fail with the
    [HTTPError]. *)
Theorem api_post_and_put_report_errors (w w1 : World) (path : string)
  (data token : pyval) (r : response) (rest : list reply) :
  get_token w = (Ok token, w1) ->
  server w1 = Reply r :: rest ->
  ok r = false ->
  let line :=
    EvStderr ("ERROR " ++ Z_to_string (status_code r) ++ ": " ++ text r) in
  (fst (api_post path data w) = Raise (HTTPError (status_code r) (text r)) /\
   exists rq, rq_method rq = POST /\
     new_events w1 (snd (api_post path data w)) [EvHttp rq; line]) /\
  (fst (api_put path data w) = Raise (HTTPError (status_code r) (text r)) /\
   exists rq, rq_method rq = PUT /\
     new_events w1 (snd (api_put path data w)) [EvHttp rq; line]).
Proof.
  intros Hg Hs Hok line.
  rewrite (api_post_error w w1 path data token r rest Hg Hs Hok).
  rewrite (api_put_error w w1 path data token r rest Hg Hs Hok).
  unfold new_events. cbn [fst snd log set_server events].
  split; (split; [reflexivity|]); eexists; (split; [|
    rewrite <- List.app_assoc; reflexivity]); reflexivity.
Qed.

(** X16. When [get_token] fails, so does the call, with the same
    exception and in the same state: no request is sent. *)
Theorem api_calls_need_a_token (w w1 : World) (e : exn) (path : string)
  (arg : pyval) :
  get_token w = (Raise e, w1) ->
  api_get path arg w = (Raise e, w1) /\
  api_post path arg w = (Raise e, w1) /\
  api_put path arg w = (Raise e, w1).
Proof.
  intros Hg. unfold api_get, api_post, api_put.
  now rewrite !(bind_raise _ _ _ _ _ Hg).
Qed.

End Calls.

(** ** The command line *)

Lemma prefix_empty (s : string) : prefix "" s = true.
Proof. now destruct s. Qed.

Ltac starts := unfold error_line; cbn; first [reflexivity|apply prefix_empty].

Ltac permit :=
  intros; cbn [permitted rq_url rq_bearer rq_method];
  first [ exact I
        | reflexivity
        | split; [starts|intros; first [discriminate|split; starts]]
        | left; starts
        | right; starts ].

Lemma substring_prefix (n : nat) (s : string) :
  prefix (substring 0 n s) s = true.
Proof.
  revert n. induction s as [|c s IH]; intros [|n]; simpl; try reflexivity.
  rewrite IH. now destruct (ascii_dec c c).
Qed.

Lemma substring_length (n : nat) (s : string) :
  String.length (substring 0 n s) = Nat.min n (String.length s).
Proof.
  revert n. induction s as [|c s IH]; intros [|n]; simpl; try reflexivity.
  now rewrite IH.
Qed.

Section CommandLine.

Context {L : PyLib}.

Variable dumps : pyval -> string.

Lemma emits_printed (P : event -> Prop) (m : M pyval) :
  emits P m -> emits P (result <- m ;; ret (Printed (json_dumps result))).
Proof. intros H. apply emits_bind; [assumption|intros v; apply emits_ret]. Qed.

Lemma api_get_answer (w w1 : World) (path : string) (params token v : pyval)
  (r : response) (rest : list reply) :
  get_token w = (Ok token, w1) ->
  server w1 = Reply r :: rest ->
  ok r = true ->
  json_loads (text r) = Some v ->
  api_get path params w
  = (Ok v,
     set_server rest
       (log (EvHttp {| rq_method := GET; rq_url := BASE_URL ++ path;
                       rq_bearer := Some token; rq_params := params;
                       rq_json := None |}) w1)).
Proof.
  intros Hg Hs Hok Hj. unfold api_get, requests_get.
  rewrite (bind_ok _ _ _ _ _ Hg).
  erewrite bind_ok by (apply http_reply; exact Hs).
  erewrite bind_ok by (apply raise_for_status_ok; exact Hok).
  unfold resp_json. now rewrite Hj.
Qed.

(** X17. Whatever the arguments, the files and the answers of the
    service, every effect of the script is a permitted one: the only file
    it writes is the credential file, every request goes to the API of the
    service, only requests to the agent endpoints go without a bearer
    token, and the lines that the script prints to the standard error are
    [ERROR ...] and [Unknown command: ...] lines. (The traceback of an
    exception that escapes is written by the interpreter, not by the
    script.) *)
Theorem main_effects_are_permitted (argv : list string) :
  emits permitted (main dumps argv).
Proof.
  assert (Htoken : emits permitted get_token)
    by (apply emits_get_token; permit).
  unfold main.
  repeat match goal with
         | |- emits _ (if ?b then _ else _) => destruct b
         end.
  - apply emits_bind; [exact Htoken|intros token].
    apply emits_bind; [apply emits_lift|intros preview]. apply emits_ret.
  - apply emits_bind; [apply emits_lift|intros name].
    apply emits_printed, emits_api_post; permit.
  - apply emits_bind; [apply emits_lift|intros channel_id].
    apply emits_bind; [apply emits_lift|intros body].
    apply emits_printed, emits_api_post; permit.
  - apply emits_printed, emits_api_get; permit.
  - apply emits_bind; [apply emits_lift|intros channel_id].
    apply emits_printed, emits_api_get; permit.
  - apply emits_printed, emits_api_get; permit.
  - apply emits_printed, emits_api_get; permit.
  - apply emits_bind; [apply emits_print; permit|intros _]. apply emits_ret.
Qed.

(** X18. A first argument that is none of the seven commands: the script
    writes [Unknown command: <cmd>] to the standard error and exits with
    status 1, without opening a file or sending a request. *)
Theorem main_unknown_command (argv : list string) (cmd : string) (w : World) :
  nth_error argv 1 = Some cmd ->
  ~ In cmd commands ->
  main dumps argv w
  = (Ok (Exit 1), log (EvStderr ("Unknown command: " ++ cmd)) w).
Proof.
  intros Hcmd Hnot. unfold main, argv_or. rewrite Hcmd.
  repeat match goal with
         | |- context [String.eqb cmd ?c] =>
             destruct (String.eqb_spec cmd c) as [->|_];
             [exfalso; apply Hnot; simpl; tauto|]
         end.
  reflexivity.
Qed.

(** X19. A command that lacks an argument fails with an [IndexError]
    before anything is done: no file is opened and no request is sent.
    [create_channel] and [get_messages] need one argument, [send_message]
    needs two. *)
Theorem main_missing_argument (prog : string) (w : World) :
  main dumps [prog; "create_channel"] w = (Raise IndexError, w) /\
  main dumps [prog; "get_messages"] w = (Raise IndexError, w) /\
  main dumps [prog; "send_message"] w = (Raise IndexError, w) /\
  forall channel_id,
    main dumps [prog; "send_message"; channel_id] w = (Raise IndexError, w).
Proof. repeat split. Qed.

(** X20. [auth], which is also the command when none is given: of a
    token that is a string the script prints the first 20 characters at
    most, followed by three dots, and does nothing beyond [get_token]. *)
Theorem main_auth_shows_a_prefix (argv : list string) (w w1 : World)
  (token : string) :
  argv_or argv 1 "auth" = "auth" ->
  get_token w = (Ok (PyStr token), w1) ->
  exists shown : string,
    main dumps argv w
    = (Ok (Printed (dumps (PyDict [("token", PyStr (shown ++ "..."));
                                   ("status", PyStr "ok")]))), w1) /\
    prefix shown token = true /\
    String.length shown = Nat.min 20 (String.length token).
Proof.
  intros Hcmd Hg. exists (substring 0 20 token). split; [|split].
  - unfold main. rewrite Hcmd. cbn [String.eqb Ascii.eqb Bool.eqb].
    now rewrite (bind_ok _ _ _ _ _ Hg).
  - apply substring_prefix.
  - apply substring_length.
Qed.

(** X21. [get_messages] asks for the messages of the channel with
    [limit] 50, and with [since] exactly when a fourth argument is given
    and is not empty; further arguments are ignored. The answer is printed
    as [json.dumps] with [indent=2] writes it. *)
Theorem main_get_messages (prog channel_id : string) (more : list string)
  (w w1 : World) (token answer : pyval) (r : response) (rest : list reply) :
  get_token w = (Ok token, w1) ->
  server w1 = Reply r :: rest ->
  ok r = true ->
  json_loads (text r) = Some answer ->
  let params :=
    match more with
    | [] => PyDict [("limit", PyInt 50)]
    | since :: _ =>
        if String.eqb since "" then PyDict [("limit", PyInt 50)]
        else PyDict [("limit", PyInt 50); ("since", PyStr since)]
    end in
  main dumps (prog :: "get_messages" :: channel_id :: more) w
  = (Ok (Printed (json_dumps answer)),
     set_server rest
       (log (EvHttp {| rq_method := GET;
                       rq_url := "https://gather.is/api/channels/"
                                 ++ channel_id ++ "/messages";
                       rq_bearer := Some token;
                       rq_params := params;
                       rq_json := None |}) w1)).
Proof.
  intros Hg Hs Hok Hj params. unfold main.
  cbn [argv_or nth_error String.eqb Ascii.eqb Bool.eqb py_index lift].
  unfold bind at 1. cbn [lift].
  erewrite bind_ok by (eapply api_get_answer; eassumption).
  unfold ret, params, messages_params.
  cbn [nth_error]. destruct more as [|since more']; [reflexivity|].
  destruct (String.eqb since ""); reflexivity.
Qed.

End CommandLine.

(** ** With the libraries of CPython *)

Lemma py_getitem_get (obj v default : pyval) (k : string) :
  py_getitem obj k = Ok v -> py_get obj k default = Ok v.
Proof.
  destruct obj; try discriminate. simpl.
  destruct (dict_lookup k d); [trivial|discriminate].
Qed.

(** X22. A token that [authenticate] has returned and that the expiry
    check finds fresh is what the next [get_token] returns, from the
    credential file that [authenticate] wrote and without a request: the
    file written with [json.dump] is read back by [json.load] as the
    answer of the service. *)
Theorem authenticate_then_get_token (w : World) (token : pyval) :
  fst (authenticate (L := cpython) w) = Ok token ->
  token_fresh (L := cpython) (now w) token = true ->
  let w' := snd (authenticate (L := cpython) w) in
  get_token (L := cpython) w' = (Ok token, log (EvOpenRead AUTH_FILE) w').
Proof.
  intros Hauth Hfresh w'.
  destruct (authenticate_ok_inv (L := cpython) w token Hauth)
    as (r1 & r2 & rest & auth & _ & Hj & Htok & Hfile & _ & Hnow).
  fold w' in Hfile, Hnow.
  rewrite (get_token_cached (L := cpython) w' (CPython.json_dumps auth) auth
             token Hfile).
  - now rewrite Hnow, Hfresh.
  - apply JsonRoundTrip.json_loads_dumps.
    exact (JsonRoundTrip.json_loads_well_formed _ _ Hj).
  - now apply py_getitem_get.
Qed.

(** X23. What [get_channels], [get_balance] and [me] print is JSON that
    reads back as the answer of the service. *)
Theorem main_prints_the_answer (dumps : pyval -> string) (prog cmd : string)
  (w w1 : World) (token answer : pyval) (r : response) (rest : list reply) :
  In cmd ["get_channels"; "get_balance"; "me"] ->
  get_token (L := cpython) w = (Ok token, w1) ->
  server w1 = Reply r :: rest ->
  ok r = true ->
  CPython.json_loads (text r) = Some answer ->
  exists (printed : string) (w2 : World),
    main (L := cpython) dumps [prog; cmd] w = (Ok (Printed printed), w2) /\
    CPython.json_loads printed = Some answer.
Proof.
  intros Hcmd Hg Hs Hok Hj.
  assert (Hback : CPython.json_loads (CPython.json_dumps answer) = Some answer).
  { apply JsonRoundTrip.json_loads_dumps.
    exact (JsonRoundTrip.json_loads_well_formed _ _ Hj). }
  simpl in Hcmd. destruct Hcmd as [<-|[<-|[<-|[]]]]; unfold main;
    cbn [argv_or nth_error String.eqb Ascii.eqb Bool.eqb];
    (erewrite bind_ok
       by (eapply (api_get_answer (L := cpython)); eassumption));
    eexists; eexists; (split; [reflexivity|exact Hback]).
Qed.

(** *** The payload of a token *)

Lemma byte_values_complete (a : ascii) : In (N_of_ascii a) byte_values.
Proof.
  unfold byte_values. apply in_map_iff.
  exists (N.to_nat (N_of_ascii a)). split; [apply Nnat.N2Nat.id|].
  apply in_seq. pose proof (N_ascii_bounded a). lia.
Qed.

Lemma single_ok_all (a : ascii) : single_ok (N_of_ascii a) = true.
Proof.
  assert (H : forallb single_ok byte_values = true)
    by (vm_compute; reflexivity).
  rewrite forallb_forall in H. apply H, byte_values_complete.
Qed.

Lemma pair_ok_all (a b : ascii) :
  pair_ok (N_of_ascii a) (N_of_ascii b) = true.
Proof.
  assert (H : forallb (fun x => forallb (pair_ok x) byte_values) byte_values
              = true) by (vm_compute; reflexivity).
  rewrite forallb_forall in H.
  specialize (H _ (byte_values_complete a)).
  rewrite forallb_forall in H. apply H, byte_values_complete.
Qed.

Lemma reads_spec (c : ascii) (v : N) :
  reads c v = true ->
  Ascii.eqb c "=" = false /\ Ascii.eqb c "." = false /\
  (N_of_ascii c <? 128)%N = true /\ CPython.b64_value c = Some v.
Proof.
  unfold reads. rewrite !andb_true_iff, !negb_true_iff.
  intros (((H1 & H2) & H3) & H4). repeat split; try assumption.
  destruct (CPython.b64_value c) as [v'|]; [|discriminate].
  apply N.eqb_eq in H4. now subst.
Qed.

Lemma rstrip_pad_cons (c : ascii) (s : string) :
  Ascii.eqb c "=" = false -> rstrip_pad (String c s) = String c (rstrip_pad s).
Proof. intros H. simpl. rewrite H. now destruct (rstrip_pad s). Qed.

Lemma padded_quad (c1 c2 c3 c4 : ascii) (s : string) :
  padded (String c1 (String c2 (String c3 (String c4 s))))
  = String c1 (String c2 (String c3 (String c4 (padded s)))).
Proof.
  unfold padded. cbn [String.length append].
  replace (S (S (S (S (String.length s))))) with (String.length s + 1 * 4)%nat
    by lia.
  now rewrite Nat.Div0.mod_add.
Qed.

Lemma a2b_quad (c1 c2 c3 c4 : ascii) (v1 v2 v3 v4 : N) (rest : string)
  (leftchar : N) (pads : nat) :
  Ascii.eqb c1 "=" = false -> CPython.b64_value c1 = Some v1 ->
  Ascii.eqb c2 "=" = false -> CPython.b64_value c2 = Some v2 ->
  Ascii.eqb c3 "=" = false -> CPython.b64_value c3 = Some v3 ->
  Ascii.eqb c4 "=" = false -> CPython.b64_value c4 = Some v4 ->
  CPython.a2b_base64 (String c1 (String c2 (String c3 (String c4 rest))))
    0 leftchar pads
  = option_map
      (fun tail =>
         String (CPython.byte_of (N.lor (N.shiftl v1 2) (N.shiftr v2 4)))
           (String (CPython.byte_of
                      (N.lor (N.shiftl (N.land v2 15) 4) (N.shiftr v3 2)))
              (String (CPython.byte_of (N.lor (N.shiftl (N.land v3 3) 6) v4))
                 tail)))
      (CPython.a2b_base64 rest 0 0%N 0).
Proof.
  intros P1 V1 P2 V2 P3 V3 P4 V4. cbn [CPython.a2b_base64].
  rewrite P1, V1, P2, V2, P3, V3, P4, V4.
  now destruct (CPython.a2b_base64 rest 0 0%N 0).
Qed.

Lemma a2b_one_byte (c1 c2 : ascii) (v1 v2 : N) (leftchar : N) (pads : nat) :
  Ascii.eqb c1 "=" = false -> CPython.b64_value c1 = Some v1 ->
  Ascii.eqb c2 "=" = false -> CPython.b64_value c2 = Some v2 ->
  CPython.a2b_base64 (String c1 (String c2 "==")) 0 leftchar pads
  = Some (String (CPython.byte_of (N.lor (N.shiftl v1 2) (N.shiftr v2 4)))
            EmptyString).
Proof.
  intros P1 V1 P2 V2. cbn [CPython.a2b_base64]. now rewrite P1, V1, P2, V2.
Qed.

Lemma a2b_two_bytes (c1 c2 c3 : ascii) (v1 v2 v3 : N) (leftchar : N)
  (pads : nat) :
  Ascii.eqb c1 "=" = false -> CPython.b64_value c1 = Some v1 ->
  Ascii.eqb c2 "=" = false -> CPython.b64_value c2 = Some v2 ->
  Ascii.eqb c3 "=" = false -> CPython.b64_value c3 = Some v3 ->
  CPython.a2b_base64 (String c1 (String c2 (String c3 "="))) 0 leftchar pads
  = Some (String (CPython.byte_of (N.lor (N.shiftl v1 2) (N.shiftr v2 4)))
            (String (CPython.byte_of
                       (N.lor (N.shiftl (N.land v2 15) 4) (N.shiftr v3 2)))
               EmptyString)).
Proof.
  intros P1 V1 P2 V2 P3 V3. cbn [CPython.a2b_base64].
  now rewrite P1, V1, P2, V2, P3, V3.
Qed.

Lemma string_ind3 (P : string -> Prop) :
  P EmptyString ->
  (forall a, P (String a EmptyString)) ->
  (forall a b, P (String a (String b EmptyString))) ->
  (forall a b c s, P s -> P (String a (String b (String c s)))) ->
  forall s, P s.
Proof.
  intros H0 H1 H2 H3. fix IH 1.
  intros [|a [|b [|c s]]]; [exact H0|apply H1|apply H2|apply H3, IH].
Qed.

Ltac byte_facts H :=
  cbv zeta in H; rewrite !andb_true_iff in H;
  repeat match type of H with _ /\ _ => destruct H as [H ?] end;
  repeat match goal with
         | R : reads _ _ = true |- _ =>
             apply reads_spec in R; destruct R as (? & ? & ? & ?)
         | R : Ascii.eqb _ _ = true |- _ =>
             apply Ascii.eqb_eq in R; rewrite ascii_N_embedding in R
         | R : N.eqb _ _ = true |- _ => apply N.eqb_eq in R
         end.

Ltac use_facts :=
  repeat match goal with
         | H : _ = _ |- _ => rewrite H
         end.

(** The text of [b64encode] without its pads has no dot, and with the
    pads of line 67 it is ASCII text that [b64decode] reads back. *)
Lemma payload_reads_back (b : string) :
  let payload := rstrip_pad (CPython.b64encode b) in
  dot_free payload = true /\
  CPython.all_ascii (padded payload) = true /\
  CPython.a2b_base64 (padded payload) 0 0%N 0 = Some b.
Proof.
  induction b as [|x|x y|x y z b (IHd & IHa & IHr)] using string_ind3;
    cbv zeta.
  - repeat split.
  - pose proof (single_ok_all x) as Hx. unfold single_ok in Hx.
    byte_facts Hx. cbn [CPython.b64encode]. cbv zeta.
    rewrite !rstrip_pad_cons by assumption.
    change (rstrip_pad "==") with EmptyString.
    match goal with
    | |- context [padded (String ?c1 (String ?c2 EmptyString))] =>
        change (padded (String c1 (String c2 EmptyString)))
          with (String c1 (String c2 "=="))
    end.
    split; [|split]; [| |erewrite a2b_one_byte by eassumption];
      cbn [dot_free CPython.all_ascii]; use_facts; reflexivity.
  - pose proof (single_ok_all y) as Hy. unfold single_ok in Hy.
    pose proof (pair_ok_all x y) as Hxy. unfold pair_ok in Hxy.
    pose proof (single_ok_all x) as Hx. unfold single_ok in Hx.
    byte_facts Hy. byte_facts Hxy. byte_facts Hx.
    cbn [CPython.b64encode]. cbv zeta.
    rewrite !rstrip_pad_cons by assumption.
    change (rstrip_pad "=") with EmptyString.
    match goal with
    | |- context [padded (String ?c1 (String ?c2 (String ?c3 EmptyString)))] =>
        change (padded (String c1 (String c2 (String c3 EmptyString))))
          with (String c1 (String c2 (String c3 "=")))
    end.
    split; [|split]; [| |erewrite a2b_two_bytes by eassumption];
      cbn [dot_free CPython.all_ascii]; use_facts; reflexivity.
  - pose proof (single_ok_all x) as Hx. unfold single_ok in Hx.
    pose proof (pair_ok_all x y) as Hxy. unfold pair_ok in Hxy.
    pose proof (pair_ok_all y z) as Hyz. unfold pair_ok in Hyz.
    pose proof (single_ok_all z) as Hz. unfold single_ok in Hz.
    byte_facts Hx. byte_facts Hxy. byte_facts Hyz. byte_facts Hz.
    cbn [CPython.b64encode]. cbv zeta.
    rewrite !rstrip_pad_cons by assumption. rewrite padded_quad.
    split; [|split]; [| |erewrite a2b_quad by eassumption];
      cbn [dot_free CPython.all_ascii]; use_facts; reflexivity.
Qed.

(** X24. A token whose payload is standard base64 without its pads, as
    a JWT carries it, is decoded whatever the length of the payload: the
    pads that line 67 adds (one to four) make [b64decode] return the
    encoded bytes, so the claims are what [json.loads] makes of them. *)
Theorem decode_claims_standard_payload (header signature bytes : string) :
  dot_free header = true ->
  decode_claims (L := cpython)
    (PyStr (header ++ "." ++ rstrip_pad (CPython.b64encode bytes)
            ++ "." ++ signature))
  = py_json_loads_bytes (L := cpython) bytes.
Proof.
  intros Hh.
  destruct (payload_reads_back bytes) as (Hd & Ha & Hr). cbv zeta in *.
  set (payload := rstrip_pad (CPython.b64encode bytes)) in *.
  change ("." ++ payload ++ "." ++ signature)
    with (String "." (payload ++ String "." signature)).
  rewrite (decode_claims_payload (L := cpython) (split_on "." signature)
             header payload).
  - unfold py_b64decode. cbn [b64decode cpython]. unfold CPython.b64decode.
    now rewrite Ha, Hr.
  - now rewrite (split_on_segment _ _ Hh), (split_on_segment _ _ Hd).
Qed.

(** ** The further properties on concrete runs *)

Ltac evaluate := first [vm_compute; reflexivity|cbn; lia].

Lemma authenticate_returns_persisted_token_witness :
  let w := world Missing service in
  exists (r1 r2 : response) (rest : list reply) (auth : pyval),
    server w = Reply r1 :: Reply r2 :: rest /\
    ok r1 = true /\ ok r2 = true /\
    CPython.json_loads (text r2) = Some auth /\
    py_getitem auth "token" = Ok (PyStr fresh_token) /\
    fs (snd (authenticate (L := cpython) w)) AUTH_FILE
    = Content (CPython.json_dumps auth) /\
    server (snd (authenticate (L := cpython) w)) = rest.
Proof.
  intros w.
  apply (authenticate_returns_persisted_token (L := cpython) w
           (PyStr fresh_token)).
  vm_compute; reflexivity.
Defined.

Lemma authenticate_without_keys_witness :
  let w := set_file PRIVATE_KEY_FILE Missing (world Missing service) in
  server (snd (authenticate (L := cpython) w)) = service.
Proof.
  intros w.
  destruct (authenticate_without_keys (L := cpython) w) as (_ & H & _);
    [vm_compute; reflexivity|exact H].
Defined.

Lemma authenticate_unusable_challenge_witness :
  let w := world Missing [reply_of 200 (json_object "status" "ok")] in
  fst (authenticate (L := cpython) w) = Raise (KeyError "nonce").
Proof.
  intros w.
  destruct (authenticate_unusable_challenge (L := cpython) w private_key_data
              public_key_data
              {| status_code := 200; text := json_object "status" "ok" |}
              [] (KeyError "nonce")) as (H & _);
    [evaluate ..|exact H].
Defined.

Lemma authenticate_rejected_witness :
  let w := world Missing [reply_of 200 nonce_body;
                          reply_of 401 forbidden_body] in
  fst (authenticate (L := cpython) w) = Raise (HTTPError 401 forbidden_body).
Proof.
  intros w.
  edestruct (authenticate_rejected (L := cpython) w private_key_data
               public_key_data
               {| status_code := 200; text := nonce_body |}
               {| status_code := 401; text := forbidden_body |} [])
    as (H & _); [evaluate ..|exact H].
Defined.

Lemma get_token_twice_witness :
  let w := world (Content (credential fresh_token)) service in
  fst (get_token (L := cpython) (snd (get_token (L := cpython) w)))
  = Ok (PyStr fresh_token).
Proof.
  intros w.
  edestruct (get_token_twice (L := cpython) w (credential fresh_token))
    as (_ & H & _); [evaluate ..|exact H].
Defined.

Lemma get_token_first_run_witness :
  let w := world Missing service in
  fst (get_token (L := cpython) w) = Ok (PyStr fresh_token).
Proof.
  intros w.
  edestruct (get_token_first_run (L := cpython) w private_key_data
               public_key_data
               {| status_code := 200; text := nonce_body |}
               {| status_code := 200; text := token_body |} [])
    as (H & _); [evaluate ..|exact H].
Defined.

Lemma get_token_without_usable_exp_witness :
  let w := world (Content (credential "eyJhbGciOiJFZERTQSJ9.e30.c2ln"))
             service in
  get_token (L := cpython) w
  = authenticate (L := cpython) (log (EvOpenRead AUTH_FILE) w).
Proof.
  intros w.
  eapply (get_token_without_usable_exp (L := cpython) w
            (credential "eyJhbGciOiJFZERTQSJ9.e30.c2ln"));
    [evaluate|evaluate|evaluate|].
  apply (exp_missing _ _ []); [evaluate|evaluate|].
  vm_compute. discriminate.
Defined.

Lemma decode_claims_reads_the_payload_only_witness :
  decode_claims (L := cpython)
    (PyStr ("eyJhbGciOiJFZERTQSJ9" ++ "." ++ "eyJleHAiOjk5OTk5OTk5OTl9"
            ++ "." ++ "c2ln"))
  = rbind (py_b64decode (L := cpython)
             (PyStr (padded "eyJleHAiOjk5OTk5OTk5OTl9")))
      (py_json_loads_bytes (L := cpython)).
Proof.
  apply (decode_claims_reads_the_payload_only (L := cpython)
           "eyJhbGciOiJFZERTQSJ9" "eyJleHAiOjk5OTk5OTk5OTl9");
    reflexivity.
Defined.

Lemma get_token_unsplittable_token_witness :
  let w := world (Content (credential "opaque")) service in
  get_token (L := cpython) w
  = authenticate (L := cpython) (log (EvOpenRead AUTH_FILE) w).
Proof.
  intros w.
  eapply (get_token_unsplittable_token (L := cpython) w
            (credential "opaque")); [evaluate|evaluate|evaluate|].
  intros s [= <-]. reflexivity.
Defined.

Lemma api_calls_on_success_witness :
  let w := world (Content (credential fresh_token))
             [reply_of 200 (json_object "name" "general")] in
  fst (api_get (L := cpython) "/api/channels" PyNone w)
  = Ok (PyDict [("name", PyStr "general")]).
Proof.
  intros w.
  edestruct (api_calls_on_success (L := cpython) w
               (log (EvOpenRead AUTH_FILE) w) "/api/channels" PyNone
               (PyStr fresh_token)
               {| status_code := 200; text := json_object "name" "general" |}
               []) as (H & _); [evaluate ..|rewrite H; reflexivity].
Defined.

Lemma api_post_and_put_report_errors_witness :
  let w := world (Content (credential fresh_token)) forbidden in
  fst (api_post (L := cpython) "/api/channels" (PyDict []) w)
  = Raise (HTTPError 403 forbidden_body).
Proof.
  intros w.
  edestruct (api_post_and_put_report_errors (L := cpython) w
               (log (EvOpenRead AUTH_FILE) w) "/api/channels" (PyDict [])
               (PyStr fresh_token)
               {| status_code := 403; text := forbidden_body |} [])
    as ((H & _) & _); [evaluate ..|exact H].
Defined.

Lemma api_calls_need_a_token_witness :
  let w := set_file PRIVATE_KEY_FILE Missing (world Missing service) in
  api_get (L := cpython) "/api/balance" PyNone w
  = (Raise OSError, log (EvOpenRead PRIVATE_KEY_FILE) w).
Proof.
  intros w.
  edestruct (api_calls_need_a_token (L := cpython) w
               (log (EvOpenRead PRIVATE_KEY_FILE) w) OSError "/api/balance"
               PyNone) as (H & _); [reflexivity|exact H].
Defined.

Lemma main_unknown_command_witness :
  let w := world Missing service in
  main (L := cpython) CPythonDumps.dumps ["gather_agent.py"; "delete_channel"]
    w
  = (Ok (Exit 1), log (EvStderr "Unknown command: delete_channel") w).
Proof.
  intros w.
  apply (main_unknown_command (L := cpython) CPythonDumps.dumps
           ["gather_agent.py"; "delete_channel"] "delete_channel" w);
    [reflexivity|].
  simpl. intuition discriminate.
Defined.

Lemma main_auth_shows_a_prefix_witness :
  let w := world (Content (credential fresh_token)) service in
  exists shown : string,
    main (L := cpython) CPythonDumps.dumps ["gather_agent.py"] w
    = (Ok (Printed (CPythonDumps.dumps
                      (PyDict [("token", PyStr (shown ++ "..."));
                               ("status", PyStr "ok")]))),
       log (EvOpenRead AUTH_FILE) w) /\
    prefix shown fresh_token = true /\
    String.length shown = Nat.min 20 (String.length fresh_token).
Proof.
  intros w.
  apply (main_auth_shows_a_prefix (L := cpython) CPythonDumps.dumps
           ["gather_agent.py"] w (log (EvOpenRead AUTH_FILE) w) fresh_token);
    reflexivity.
Defined.

Lemma main_get_messages_witness :
  let w := world (Content (credential fresh_token)) [reply_of 200 "[]"] in
  fst (main (L := cpython) CPythonDumps.dumps
         ["gather_agent.py"; "get_messages"; "general"; "2024-01-01"] w)
  = Ok (Printed "[]").
Proof.
  intros w.
  rewrite (main_get_messages (L := cpython) CPythonDumps.dumps
             "gather_agent.py" "general" ["2024-01-01"] w
             (log (EvOpenRead AUTH_FILE) w) (PyStr fresh_token) (PyList [])
             {| status_code := 200; text := "[]" |} []);
    reflexivity.
Defined.

Lemma authenticate_then_get_token_witness :
  let w := world Missing service in
  fst (get_token (L := cpython) (snd (authenticate (L := cpython) w)))
  = Ok (PyStr fresh_token).
Proof.
  intros w.
  rewrite (authenticate_then_get_token w (PyStr fresh_token));
    [reflexivity|evaluate|evaluate].
Defined.

Lemma main_prints_the_answer_witness :
  let w := world (Content (credential fresh_token))
             [reply_of 200 (json_object "balance" "12")] in
  exists (printed : string) (w2 : World),
    main (L := cpython) CPythonDumps.dumps ["gather_agent.py"; "get_balance"] w
    = (Ok (Printed printed), w2) /\
    CPython.json_loads printed = Some (PyDict [("balance", PyStr "12")]).
Proof.
  intros w.
  eapply (main_prints_the_answer CPythonDumps.dumps "gather_agent.py"
            "get_balance" w (log (EvOpenRead AUTH_FILE) w)
            (PyStr fresh_token) _
            {| status_code := 200; text := json_object "balance" "12" |} []);
    [simpl; tauto|evaluate ..].
Defined.

Lemma decode_claims_standard_payload_witness :
  decode_claims (L := cpython)
    (PyStr ("eyJhbGciOiJFZERTQSJ9" ++ "."
            ++ rstrip_pad (CPython.b64encode urlsafe_claims)
            ++ "." ++ "c2ln"))
  = py_json_loads_bytes (L := cpython) urlsafe_claims.
Proof.
  apply (decode_claims_standard_payload "eyJhbGciOiJFZERTQSJ9" "c2ln"
           urlsafe_claims).
  reflexivity.
Defined.
